(** * A shallow embedding of the PDF question-answering pipeline

    The development follows [Pdfload.py] (model selection, embedding helper,
    PDF loader and chunker, vector-store rebuild, retrieval and prompt
    assembly, command-line driver) and the ingest button of [app.py].

    Conventions.
    - Python [str] is [string]; [len], slicing and the [in] operator are the
      functions of module [Py].
    - Python [int] values that occur (lengths, offsets, the identifier
      counter, page numbers) are never negative and are modelled by [nat].
    - Effects are explicit: a computation of type [M A] takes the state of
      the process and of the outside world and returns either a value or
      a raised exception, together with the new state.  The state survives
      an exception, as in Python.
    - The remote services (model listing, embedding, text generation) answer
      as a function of the calls made so far, so that a service may succeed
      on one call and fail on the next. *)

From Stdlib Require Import String Ascii List Arith ZArith Lia.
From stdpp Require Import base gmap strings pretty list.

(** ** Python primitives *)

Module Py.

(** [len(s)] on a string. *)
Definition len (s : string) : nat := String.length s.

(** [s[lo:hi]] for non-negative bounds; both bounds are clamped to the
    length of the string, as Python does. *)
Definition slice (s : string) (lo hi : nat) : string :=
  String.substring lo (hi - lo) s.

(** [l[lo:hi]] on a list, for non-negative bounds. *)
Definition list_slice {A : Type} (l : list A) (lo hi : nat) : list A :=
  take (hi - lo) (drop lo l).

(** The loop [i = start; while i < stop: yield i; i += step].  Every step
    that yields moves [i] closer to [stop] when [step] is positive, so
    [stop - start] rounds of fuel are enough. *)
Fixpoint range_from (fuel i stop step : nat) : list nat :=
  match fuel with
  | 0 => []
  | S fuel' =>
      if i <? stop then i :: range_from fuel' (i + step) stop step else []
  end.

(** [range(start, stop, step)] for a positive [step] (the source only
    calls it with the steps 1500 and 10). *)
Definition range (start stop step : nat) : list nat :=
  range_from (stop - start) start stop step.

(** [sub in s] on strings: [sub] occurs in [s] at some offset. *)
Fixpoint str_in (sub s : string) : bool :=
  String.prefix sub s ||
  match s with
  | EmptyString => false
  | String _ s' => str_in sub s'
  end.

(** [x in l] for a string [x] and a list of strings [l]. *)
Definition list_in (x : string) (l : list string) : bool :=
  existsb (String.eqb x) l.

(** [str(n)], the decimal rendering used by f-strings. *)
Definition str (n : nat) : string := pretty n.

(** [c.lower()] on one character of the ASCII range. *)
Definition lower_ascii (c : ascii) : ascii :=
  let n := nat_of_ascii c in
  if (65 <=? n) && (n <=? 90) then ascii_of_nat (n + 32) else c.

(** [s.lower()]. *)
Fixpoint lower (s : string) : string :=
  match s with
  | EmptyString => EmptyString
  | String c s' => String (lower_ascii c) (lower s')
  end.

(** Truth value of a string: only the empty string is false. *)
Definition truthy_str (s : string) : bool :=
  match s with
  | EmptyString => false
  | String _ _ => true
  end.

(** Truth value of a variable holding [None] or a list. *)
Definition truthy {A : Type} (v : option (list A)) : bool :=
  match v with
  | None => false
  | Some [] => false
  | Some (_ :: _) => true
  end.

(** The line feed and the double quote, for building messages. *)
Definition nl : string := String (ascii_of_nat 10) EmptyString.
Definition dquote : string := String (ascii_of_nat 34) EmptyString.

(** [s * n] on strings. *)
Fixpoint str_mul (s : string) (n : nat) : string :=
  match n with
  | 0 => EmptyString
  | S n' => s +:+ str_mul s n'
  end.

(** [os.path.basename]: what follows the last slash. *)
Fixpoint basename_from (acc p : string) : string :=
  match p with
  | EmptyString => acc
  | String c p' =>
      if Ascii.eqb c "/"%char then basename_from EmptyString p'
      else basename_from (acc +:+ String c EmptyString) p'
  end.

Definition basename (p : string) : string := basename_from EmptyString p.

End Py.

(** ** Data model *)

(** Outcome of a call that may raise; an exception carries its message. *)
Inductive result (A : Type) : Type :=
| Ok (a : A)
| Raise (msg : string).

Arguments Ok {A} a.
Arguments Raise {A} msg.

(** The metadata dictionary [{"source": filename, "page": n}] of a chunk. *)
Record metadata : Type := Metadata { source : string; page : nat }.

(** A PDF file as the loader sees it: its path, and what [PdfReader] gives.
    Opening the file may raise; otherwise [reader.pages] is a sequence of
    pages, and [extract_text] on each page returns its text or raises. *)
Record pdf_file : Type := PdfFile {
  path : string;
  reader : result (list (result string))
}.

(** The four lists the loader builds, and its counter. *)
Record chunk_state : Type := ChunkState {
  documents : list string;
  metadatas : list metadata;
  ids : list string;
  id_counter : nat
}.

Section Model.

(** The type of the numbers of an embedding vector.  The program never
    computes with them. *)
Variable scalar : Type.

Definition vector : Type := list scalar.

(** One stored tuple of the vector index. *)
Record entry : Type := Entry {
  entry_id : string;
  entry_embedding : vector;
  entry_document : string;
  entry_metadata : metadata
}.

(** The dictionary returned by a query: one inner list per query vector. *)
Record query_result : Type := QueryResult {
  qr_documents : list (list string);
  qr_metadatas : list (list metadata)
}.

(** Calls that leave the program, in the order they are made. *)
Inductive call : Type :=
| ModelsList
| EmbedContent (model contents : string)
| GenerateContent (model contents : string)
| DeleteCollection (name : string)
| CreateCollection (name : string)
| CollectionAdd (name : string) (docs : list string) (embs : list vector)
    (metas : list metadata) (idents : list string)
| CollectionQuery (name : string) (query_embeddings : list vector)
    (n_results : nat).

(** The remote services.  Each answer may depend on the calls so far.
    [nearest] is the similarity search of the vector store, which the
    program treats as a black box. *)
Record services : Type := Services {
  models_list : list call -> result (list string);
  embed_content : list call -> string -> string -> result (list vector);
  generate_content : list call -> string -> string -> result string;
  nearest : list entry -> list vector -> nat -> result query_result
}.

(** State of the process and of its surroundings: what was printed, the
    persistent vector store (collection name to stored tuples), the calls
    made, and for each folder the PDF files that [glob] finds below it,
    in the order [glob] lists them. *)
Record world : Type := World {
  stdout : list string;
  chroma : gmap string (list entry);
  calls : list call;
  files : string -> list pdf_file
}.

(** *** The effect monad *)

Definition M (A : Type) : Type := world -> result A * world.

#[export] Instance M_ret : MRet M := fun A a w => (Ok a, w).

#[export] Instance M_bind : MBind M := fun A B k c w =>
  match c w with
  | (Ok a, w') => k a w'
  | (Raise e, w') => (Raise e, w')
  end.

Definition raise {A : Type} (e : string) : M A := fun w => (Raise e, w).

(** [try: c  except Exception as e: h e] *)
Definition try_except {A : Type} (c : M A) (h : string -> M A) : M A :=
  fun w =>
    match c w with
    | (Ok a, w') => (Ok a, w')
    | (Raise e, w') => h e w'
    end.

Definition print (s : string) : M unit := fun w =>
  (Ok tt, World (stdout w ++ [s]) (chroma w) (calls w) (files w)).

Definition log_call (c : call) : M unit := fun w =>
  (Ok tt, World (stdout w) (chroma w) (calls w ++ [c]) (files w)).

Definition history : M (list call) := fun w => (Ok (calls w), w).

Definition lift {A : Type} (r : result A) : M A := fun w => (r, w).

(** A [for] loop over [l] that threads the loop-carried variables [s]. *)
Fixpoint for_each {A S : Type} (l : list A) (body : A -> S -> M S) (s : S)
  : M S :=
  match l with
  | [] => mret s
  | x :: l' => s' ← body x s; for_each l' body s'
  end.

(** *** The service client and the vector store *)

Variable svc : services.

(** [client.models.list()], as the list of the names of the models. *)
Definition client_models_list : M (list string) :=
  h ← history; log_call ModelsList;; lift (models_list svc h).

(** [client.models.embed_content(model=..., contents=...)]; the value is
    the list [result.embeddings] of the vectors returned. *)
Definition client_models_embed_content (model contents : string)
  : M (list vector) :=
  h ← history; log_call (EmbedContent model contents);;
  lift (embed_content svc h model contents).

(** [client.models.generate_content(model=..., contents=...).text] *)
Definition client_models_generate_content (model contents : string)
  : M string :=
  h ← history; log_call (GenerateContent model contents);;
  lift (generate_content svc h model contents).

Definition set_chroma (db : gmap string (list entry)) : M unit := fun w =>
  (Ok tt, World (stdout w) db (calls w) (files w)).

Definition get_chroma : M (gmap string (list entry)) := fun w =>
  (Ok (chroma w), w).

(** Modelled from the spec: the vector store is an external library whose
    code is not part of the sources.  Deleting drops the named collection
    and raises when there is none (this is the error the [try] of
    [setup_vector_db] swallows). *)
Definition delete_collection (name : string) : M unit :=
  log_call (DeleteCollection name);;
  db ← get_chroma;
  match db !! name with
  | None => raise ("Collection " +:+ name +:+ " does not exist.")
  | Some _ => set_chroma (delete name db)
  end.

(** Modelled from the spec: creating registers a fresh empty collection
    under the name and raises when the name is taken.  The handle returned
    is the name: the tuples stay in the store. *)
Definition create_collection (name : string) : M string :=
  log_call (CreateCollection name);;
  db ← get_chroma;
  match db !! name with
  | Some _ => raise ("Collection " +:+ name +:+ " already exists")
  | None => set_chroma (<[name := []]> db);; mret name
  end.

(** Modelled from the spec: [get_collection] gives the handle of an existing
    collection. *)
Definition get_collection (name : string) : M string :=
  db ← get_chroma;
  match db !! name with
  | None => raise ("Collection " +:+ name +:+ " does not exist.")
  | Some _ => mret name
  end.

(** The tuples made of four parallel lists. *)
Fixpoint make_entries (idents : list string) (embs : list vector)
  (docs : list string) (metas : list metadata) : list entry :=
  match idents, embs, docs, metas with
  | i :: idents', e :: embs', d :: docs', m :: metas' =>
      Entry i e d m :: make_entries idents' embs' docs' metas'
  | _, _, _, _ => []
  end.

(** Embeddings of one dimension: every vector is as long as the first. *)
Definition same_dimension (embs : list vector) : bool :=
  match embs with
  | [] => true
  | e :: embs' => forallb (fun e' => length e' =? length e) embs'
  end.

(** Modelled from the spec: the vector store is an external library.  The
    contract of [add] in section 4.4 asks that the four sequences have equal
    length and that the identifiers are unique within the collection, and
    the data model of section 3 that the embeddings of one index share one
    dimensionality.  As the library does, [add] also refuses an empty batch
    and an empty vector: the vector [get_gemini_embedding] returns after a
    failure is one. *)
Definition add_accepts (stored : list entry) (idents : list string)
  (embs : list vector) (docs : list string) (metas : list metadata) : bool :=
  (length embs =? length idents) && (length docs =? length idents) &&
  (length metas =? length idents) &&
  bool_decide (NoDup (map entry_id stored ++ idents)) &&
  negb (length idents =? 0) &&
  forallb (fun e => negb (length e =? 0)) embs &&
  same_dimension (map entry_embedding stored ++ embs).

(** Modelled from the spec: [collection.add(documents=..., embeddings=...,
    metadatas=..., ids=...)] appends the tuples to the collection, or raises
    when the store refuses them; the one message stands for the exception
    of the store, whichever rule was broken.  Nothing around the call at the
    end of [setup_vector_db] catches it. *)
Definition collection_add (collection : string) (docs : list string)
  (embs : list vector) (metas : list metadata) (idents : list string)
  : M unit :=
  log_call (CollectionAdd collection docs embs metas idents);;
  db ← get_chroma;
  match db !! collection with
  | None => raise ("Collection " +:+ collection +:+ " does not exist.")
  | Some stored =>
      if add_accepts stored idents embs docs metas
      then set_chroma
             (<[collection := stored ++ make_entries idents embs docs metas]> db)
      else raise "add: lengths differ or identifiers repeat"
  end.

(** [collection.query(query_embeddings=..., n_results=...)]: the answer is
    that of the similarity search over the stored tuples. *)
Definition collection_query (collection : string)
  (query_embeddings : list vector) (n_results : nat) : M query_result :=
  log_call (CollectionQuery collection query_embeddings n_results);;
  db ← get_chroma;
  match db !! collection with
  | None => raise ("Collection " +:+ collection +:+ " does not exist.")
  | Some stored => lift (nearest svc stored query_embeddings n_results)
  end.

(** ** The program: [Pdfload.py] *)

(** *** Model selection *)

Definition priority_list : list string :=
  [ "models/gemini-1.5-flash";
    "models/gemini-1.5-flash-001";
    "models/gemini-1.5-flash-002";
    "models/gemini-1.5-pro";
    "models/gemini-1.5-pro-001";
    "models/gemini-1.5-pro-002";
    "models/gemini-1.0-pro" ].

(** The test of the fallback loop. *)
Definition is_fallback_model (model : string) : bool :=
  Py.str_in "gemini" model && negb (Py.str_in "embedding" model)
  && negb (Py.str_in "vision" model).

(** The body of the [try] block: [Some model] when one of the two loops
    returns [model], [None] when both loops run to their end. *)
Definition detect_model : M (option string) :=
  my_models ← client_models_list;
  match find (fun model => Py.list_in model my_models) priority_list with
  | Some model =>
      print (" Auto-Selected Model: " +:+ model);; mret (Some model)
  | None =>
      match find is_fallback_model my_models with
      | Some model =>
          print (" Auto-Selected Model (Fallback): " +:+ model);;
          mret (Some model)
      | None => mret None
      end
  end.

Definition get_best_available_model : M string :=
  print "Auto-detecting available models...";;
  returned ← try_except detect_model
    (fun e => print (" Auto-detect failed: " +:+ e);; mret None);
  match returned with
  | Some model => mret model
  | None =>
      print " defaulting to 'gemini-1.5-pro'";; mret "gemini-1.5-pro"
  end.

(** The top level of the module: the credential check, then the one
    detection whose value is the global [CURRENT_MODEL].  The functions that
    read the global take it as their first argument. *)
Definition import_Pdfload (GEMINI_API_KEY : option string) : M string :=
  match GEMINI_API_KEY with
  | Some (String _ _) => get_best_available_model
  | _ => raise " API Key missing! Make sure it is in your .env file."
  end.

(** *** Embedding helper *)

Definition get_gemini_embedding (text : string) : M vector :=
  try_except
    (embeddings ← client_models_embed_content "text-embedding-004" text;
     match embeddings with
     | values :: _ => mret values
     | [] => raise "list index out of range"
     end)
    (fun e => print (" Error embedding text: " +:+ e);; mret []).

(** *** Loading and chunking *)

Definition chunk_size : nat := 2000.
Definition overlap : nat := 500.

(** The body of the innermost loop, for the window start [i]. *)
Definition append_chunk (filename : string) (page_num : nat) (text : string)
  (st : chunk_state) (i : nat) : chunk_state :=
  ChunkState
    (documents st ++ [Py.slice text i (i + chunk_size)])
    (metadatas st ++ [Metadata filename (page_num + 1)])
    (ids st ++ ["doc_" +:+ Py.str (id_counter st)])
    (id_counter st + 1).

(** The loop [for i in range(0, len(text), chunk_size - overlap)]. *)
Definition chunk_page (filename : string) (page_num : nat) (text : string)
  (st : chunk_state) : chunk_state :=
  fold_left (append_chunk filename page_num text)
    (Py.range 0 (Py.len text) (chunk_size - overlap)) st.

(** The loop over [enumerate(reader.pages)], from page index [page_num].
    A page without text is skipped; an exception ends the loop and keeps
    what was appended before it. *)
Fixpoint read_pages (filename : string) (page_num : nat)
  (pages : list (result string)) (st : chunk_state)
  : result unit * chunk_state :=
  match pages with
  | [] => (Ok tt, st)
  | Raise e :: _ => (Raise e, st)
  | Ok text :: pages' =>
      if Py.truthy_str text
      then read_pages filename (S page_num) pages'
             (chunk_page filename page_num text st)
      else read_pages filename (S page_num) pages' st
  end.

(** The body of the loop over the files: the [try] and its handler. *)
Definition read_pdf (pdf : pdf_file) (st : chunk_state) : M chunk_state :=
  let filename := Py.basename (path pdf) in
  let failed (e : string) (st' : chunk_state) : M chunk_state :=
    print ("    Error reading " +:+ filename +:+ ": " +:+ e);; mret st' in
  match reader pdf with
  | Raise e => failed e st
  | Ok pages =>
      match read_pages filename 0 pages st with
      | (Ok _, st') => mret st'
      | (Raise e, st') => failed e st'
      end
  end.

(** [glob.glob(os.path.join(target_path, "**", "*.pdf"), recursive=True)] *)
Definition glob_pdfs (folder_name : string) : M (list pdf_file) := fun w =>
  (Ok (files w folder_name), w).

Definition load_and_chunk_pdfs (folder_name : string)
  : M (option (list string) * option (list metadata) * option (list string)) :=
  pdf_files ← glob_pdfs folder_name;
  match pdf_files with
  | [] =>
      print " No PDFs found. Please check your 'pdfs' folder.";;
      mret (None, None, None)
  | _ :: _ =>
      print (" Found " +:+ Py.str (length pdf_files) +:+ " PDFs. Processing...");;
      st ← for_each pdf_files read_pdf (ChunkState [] [] [] 0);
      mret (Some (documents st), Some (metadatas st), Some (ids st))
  end.

(** *** Rebuilding the vector store *)

Definition collection_name : string := "my_pdf_knowledge_base".
Definition batch_size : nat := 10.

(** The inner loop [for doc in batch_docs]. *)
Definition embed_docs (batch_docs : list string) (embeddings : list vector)
  : M (list vector) :=
  for_each batch_docs
    (fun doc embeddings' =>
       emb ← get_gemini_embedding doc; mret (embeddings' ++ [emb]))
    embeddings.

(** The body of the loop over the batches, for the batch start [i]. *)
Definition embed_batch (docs : list string) (i : nat)
  (embeddings : list vector) : M (list vector) :=
  embeddings' ← embed_docs (Py.list_slice docs i (i + batch_size)) embeddings;
  print ("   ...processed " +:+ Py.str (Nat.min (i + batch_size) (length docs))
         +:+ "/" +:+ Py.str (length docs));;
  mret embeddings'.

Definition setup_vector_db (docs : list string) (metas : list metadata)
  (idents : list string) : M string :=
  try_except (delete_collection collection_name) (fun _ => mret tt);;
  collection ← create_collection collection_name;
  print (" Generating embeddings for " +:+ Py.str (length docs)
         +:+ " chunks...");;
  embeddings ← for_each (Py.range 0 (length docs) batch_size)
                 (embed_batch docs) [];
  collection_add collection docs embeddings metas idents;;
  print " Database built successfully!";;
  mret collection.

(** *** Retrieval and answer *)

(** [f"[Source: {meta['source']}, Page: {meta['page']}]"] *)
Definition source_info (meta : metadata) : string :=
  "[Source: " +:+ source meta +:+ ", Page: " +:+ Py.str (page meta) +:+ "]".

(** [f"Content: {doc}\nReference: {source_info}\n\n"] *)
Definition context_block (doc : string) (meta : metadata) : string :=
  "Content: " +:+ doc +:+ Py.nl +:+ "Reference: " +:+ source_info meta
  +:+ Py.nl +:+ Py.nl.

(** The loop [for i, doc in enumerate(retrieved_docs)], from index [i];
    [retrieved_meta[i]] raises when the list is too short. *)
Fixpoint build_context (i : nat) (retrieved_docs : list string)
  (retrieved_meta : list metadata) (context_text : string) : M string :=
  match retrieved_docs with
  | [] => mret context_text
  | doc :: retrieved_docs' =>
      match retrieved_meta !! i with
      | None => raise "list index out of range"
      | Some meta =>
          print ("   " +:+ Py.str (i + 1) +:+ ". " +:+ source_info meta);;
          build_context (S i) retrieved_docs' retrieved_meta
            (context_text +:+ context_block doc meta)
      end
  end.

(** The prompt template, line by line. *)
Definition make_prompt (context_text question : string) : string :=
  Py.nl +:+
  "    You are a helpful assistant. Use the following Retrieved Context to answer the user's question."
  +:+ Py.nl +:+ Py.nl +:+
  "    --- RETRIEVED CONTEXT ---" +:+ Py.nl +:+
  "    " +:+ context_text +:+ Py.nl +:+
  "    -------------------------" +:+ Py.nl +:+ Py.nl +:+
  "    USER QUESTION: " +:+ question +:+ Py.nl +:+ Py.nl +:+
  "    INSTRUCTIONS:" +:+ Py.nl +:+
  "    1. Answer only based on the context above." +:+ Py.nl +:+
  "    2. If the answer is not in the context, say " +:+ Py.dquote +:+
  "I don't know based on the documents." +:+ Py.dquote +:+ Py.nl +:+
  "    3. Cite the 'Reference' (Source and Page) for every fact you state."
  +:+ Py.nl +:+ "    ".

(** [l[0]] *)
Definition first_item {A : Type} (l : list A) : M A :=
  match l with
  | x :: _ => mret x
  | [] => raise "list index out of range"
  end.

Definition query_rag_system (CURRENT_MODEL collection question : string)
  : M string :=
  query_embedding ← get_gemini_embedding question;
  results ← collection_query collection [query_embedding] 3;
  retrieved_docs ← first_item (qr_documents results);
  retrieved_meta ← first_item (qr_metadatas results);
  print (Py.nl +:+ " FOUND RELEVANT CHUNKS:");;
  context_text ← build_context 0 retrieved_docs retrieved_meta EmptyString;
  client_models_generate_content CURRENT_MODEL
    (make_prompt context_text question).

(** *** The command-line driver *)

(** The [while True] loop.  [user_input] holds the lines still to be read;
    [input] writes its prompt and raises at the end of the input. *)
Fixpoint chat_loop (CURRENT_MODEL collection : string)
  (user_input : list string) : M unit :=
  print (Py.nl +:+ "Ask a question (or 'quit'): ");;
  match user_input with
  | [] => raise "EOF when reading a line"
  | user_q :: user_input' =>
      if Py.list_in (Py.lower user_q) ["quit"; "exit"] then mret tt
      else
        print "Thinking...";;
        try_except
          (answer ← query_rag_system CURRENT_MODEL collection user_q;
           print (Py.nl +:+ Py.str_mul "=" 50);;
           print "GEMINI ANSWER:";;
           print (Py.str_mul "=" 50);;
           print answer)
          (fun e => print (" An error occurred: " +:+ e));;
        chat_loop CURRENT_MODEL collection user_input'
  end.

(** The list held by a variable that is not [None]. *)
Definition the_list {A : Type} (v : option (list A)) : list A := default [] v.

(** The block under [if __name__ == "__main__"]. *)
Definition main (CURRENT_MODEL : string) (user_input : list string)
  : M unit :=
  print "--- STEP 1: LOADING PDFS ---";;
  loaded ← load_and_chunk_pdfs "pdfs";
  let '(docs, meta, idents) := loaded in
  if Py.truthy docs then
    print (Py.nl +:+ "--- STEP 2: BUILDING DATABASE ---");;
    collection ← setup_vector_db (the_list docs) (the_list meta)
                   (the_list idents);
    print (Py.nl +:+ "--- STEP 3: READY TO CHAT ---");;
    chat_loop CURRENT_MODEL collection user_input
  else mret tt.

(** Running the script: the module top level, then the driver. *)
Definition run_script (GEMINI_API_KEY : option string)
  (user_input : list string) : M unit :=
  CURRENT_MODEL ← import_Pdfload GEMINI_API_KEY;
  main CURRENT_MODEL user_input.

(** ** The ingest button of [app.py]

    The files have been saved to the folder before this step, so the world
    is the one after the upload.  The two messages of the page are kept with
    what is printed. *)
Definition process_and_ingest (uploaded_files : nat) : M unit :=
  loaded ← load_and_chunk_pdfs "pdfs";
  let '(docs, meta, idents) := loaded in
  if Py.truthy docs then
    setup_vector_db (the_list docs) (the_list meta) (the_list idents);;
    print ("✅ Successfully ingested " +:+ Py.str uploaded_files +:+ " files!")
  else print "No valid text found in PDFs.".

End Model.

Arguments Entry {scalar}.
Arguments entry_id {scalar}.
Arguments entry_embedding {scalar}.
Arguments entry_document {scalar}.
Arguments entry_metadata {scalar}.
Arguments ModelsList {scalar}.
Arguments EmbedContent {scalar}.
Arguments GenerateContent {scalar}.
Arguments DeleteCollection {scalar}.
Arguments CreateCollection {scalar}.
Arguments CollectionAdd {scalar}.
Arguments CollectionQuery {scalar}.
Arguments Services {scalar}.
Arguments models_list {scalar}.
Arguments embed_content {scalar}.
Arguments generate_content {scalar}.
Arguments nearest {scalar}.
Arguments World {scalar}.
Arguments stdout {scalar}.
Arguments chroma {scalar}.
Arguments calls {scalar}.
Arguments files {scalar}.
Arguments raise {scalar A}.
Arguments try_except {scalar A}.
Arguments print {scalar}.
Arguments log_call {scalar}.
Arguments history {scalar}.
Arguments lift {scalar A}.
Arguments for_each {scalar A S}.
Arguments make_entries {scalar}.
Arguments same_dimension {scalar}.
Arguments add_accepts {scalar}.
Arguments delete_collection {scalar}.
Arguments create_collection {scalar}.
Arguments get_collection {scalar}.
Arguments collection_add {scalar}.
Arguments collection_query {scalar}.
Arguments client_models_list {scalar}.
Arguments client_models_embed_content {scalar}.
Arguments client_models_generate_content {scalar}.
Arguments detect_model {scalar}.
Arguments get_best_available_model {scalar}.
Arguments import_Pdfload {scalar}.
Arguments get_gemini_embedding {scalar}.
Arguments read_pdf {scalar}.
Arguments glob_pdfs {scalar}.
Arguments load_and_chunk_pdfs {scalar}.
Arguments embed_docs {scalar}.
Arguments embed_batch {scalar}.
Arguments setup_vector_db {scalar}.
Arguments build_context {scalar}.
Arguments first_item {scalar A}.
Arguments query_rag_system {scalar}.
Arguments chat_loop {scalar}.
Arguments main {scalar}.
Arguments run_script {scalar}.
Arguments process_and_ingest {scalar}.

(** ** Vocabulary of the specification *)

(** The ceiling of [a / b] for a positive [b]. *)
Definition ceil_div (a b : Z) : Z := ((a + b - 1) / b)%Z.

(** The number of chunks the specification announces for a page of [L]
    characters: the ceiling of [max (L - O) 1 / (T - O)]. *)
Definition announced_chunk_count (L : nat) : Z :=
  ceil_div (Z.max (Z.of_nat L - Z.of_nat overlap) 1)
           (Z.of_nat chunk_size - Z.of_nat overlap).

(** The number of chunks the loop produces: the ceiling of [L / (T - O)]. *)
Definition chunk_count (L : nat) : Z :=
  ceil_div (Z.of_nat L) (Z.of_nat chunk_size - Z.of_nat overlap).

(** The chunk of [text] whose window is the [k]-th one. *)
Definition window (text : string) (k : nat) : string :=
  Py.slice text (k * (chunk_size - overlap))
                (k * (chunk_size - overlap) + chunk_size).

(** The identifier [doc_k]. *)
Definition doc_id (k : nat) : string := "doc_" +:+ Py.str k.

(** [sub] occurs in [s]. *)
Definition occurs_in (sub s : string) : Prop :=
  exists before after, s = before +:+ sub +:+ after.

(** [s2] ends [s1]. *)
Definition is_suffix (s2 s1 : string) : Prop :=
  exists before, s1 = before +:+ s2.

(** Concatenation of a list of strings, in order. *)
Definition join (l : list string) : string := foldr String.append EmptyString l.

(** The identifiers of a loader state are [doc_0 .. doc_(c-1)] for its
    counter [c], and its three lists have [c] items. *)
Definition numbered (st : chunk_state) : Prop :=
  ids st = map doc_id (seq 0 (id_counter st)) /\
  length (documents st) = id_counter st /\
  length (metadatas st) = id_counter st.

(** No page of the file gives text: the file does not open, or each of its
    pages has empty text or fails to extract. *)
Definition textless (pdf : pdf_file) : Prop :=
  match reader pdf with
  | Raise _ => True
  | Ok pages =>
      Forall (fun p => match p with
                       | Ok text => text = EmptyString
                       | Raise _ => True
                       end) pages
  end.

(** The vector [get_gemini_embedding] makes of an answer of the embedding
    service: the first vector returned, and the empty vector when the
    service raised or returned no vector. *)
Definition embedding_of {scalar : Type}
  (answer : result (list (vector scalar))) : vector scalar :=
  match answer with
  | Ok (values :: _) => values
  | Ok [] => []
  | Raise _ => []
  end.

(** The warning printed for an answer of the embedding service, if any. *)
Definition warning_of {scalar : Type}
  (answer : result (list (vector scalar))) : list string :=
  match answer with
  | Ok (_ :: _) => []
  | Ok [] => [" Error embedding text: list index out of range"]
  | Raise e => [" Error embedding text: " +:+ e]
  end.

(** The call that embeds [text]. *)
Definition embed_call {scalar : Type} (text : string) : call scalar :=
  EmbedContent "text-embedding-004" text.

(** The answer of the embedding service for the [j]-th of [texts], when
    they are embedded one after the other after the calls [h]. *)
Definition answer_at {scalar : Type} (svc : services scalar)
  (h : list (call scalar)) (texts : list string) (j : nat)
  : result (list (vector scalar)) :=
  embed_content svc (h ++ map embed_call (take j texts))
    "text-embedding-004" (nth j texts EmptyString).

(** The vectors obtained for [texts] embedded one after the other after
    the calls [h]. *)
Fixpoint embeddings_from {scalar : Type} (svc : services scalar)
  (h : list (call scalar)) (texts : list string) : list (vector scalar) :=
  match texts with
  | [] => []
  | text :: texts' =>
      embedding_of (embed_content svc h "text-embedding-004" text)
      :: embeddings_from svc (h ++ [embed_call text]) texts'
  end.

(** A model name that suggests text generation: it contains "gemini" and
    neither "embedding" nor "vision". *)
Definition generative (model : string) : Prop :=
  occurs_in "gemini" model /\ ~ occurs_in "embedding" model /\
  ~ occurs_in "vision" model.

(** The model the specification selects for an answer of the listing call:
    the first preferred model that is listed; failing that, the first listed
    model that is generative; failing that, or when the listing raised, the
    default. *)
Inductive selected : result (list string) -> string -> Prop :=
| selected_preferred my_models before model after :
    priority_list = before ++ model :: after ->
    In model my_models ->
    (forall m, In m before -> ~ In m my_models) ->
    selected (Ok my_models) model
| selected_fallback my_models before model after :
    (forall m, In m priority_list -> ~ In m my_models) ->
    my_models = before ++ model :: after ->
    generative model ->
    (forall m, In m before -> ~ generative m) ->
    selected (Ok my_models) model
| selected_nothing my_models :
    (forall m, In m priority_list -> ~ In m my_models) ->
    (forall m, In m my_models -> ~ generative m) ->
    selected (Ok my_models) "gemini-1.5-pro"
| selected_default e :
    selected (Raise e) "gemini-1.5-pro".

(** A call made after the start of the process: it is not a listing of the
    models, and if it generates text it does so with [model]. *)
Definition uses_model {scalar : Type} (model : string) (c : call scalar)
  : Prop :=
  match c with
  | ModelsList => False
  | GenerateContent m _ => m = model
  | _ => True
  end.

(** The computation [c] only adds calls that satisfy [P]. *)
Definition emits {scalar A : Type} (P : call scalar -> Prop)
  (c : M scalar A) : Prop :=
  forall w, exists new, calls (c w).2 = calls w ++ new /\ Forall P new.

(** A string of [n] copies of the character [c], for examples. *)
Fixpoint filler (n : nat) (c : ascii) : string :=
  match n with
  | 0 => EmptyString
  | S n' => String c (filler n' c)
  end.

(** A folder with three files for the examples: the second file does not
    open, and the fourth page of the first one fails after three pages. *)
Definition sample_files : list pdf_file :=
  [ PdfFile "/srv/pdfs/a.pdf"
      (Ok [Ok "alpha"; Ok EmptyString; Ok "beta"; Raise "bad page"; Ok "lost"]);
    PdfFile "/srv/pdfs/sub/b.pdf" (Raise "not a PDF");
    PdfFile "/srv/pdfs/c.pdf" (Ok [Ok "gamma"]) ].

Definition sample_world : world nat :=
  World [] ∅ [] (fun folder_name =>
    if String.eqb folder_name "pdfs" then sample_files else []).

(** Services for the examples: the embedding of the text "beta" fails. *)
Definition sample_services : services nat :=
  Services
    (fun _ => Ok ["models/embedding-001"; "models/gemini-2.0-flash";
                  "models/gemini-1.5-pro"])
    (fun h _ text =>
       if String.eqb text "beta" then Raise "quota exceeded"
       else Ok [[String.length text; length h]])
    (fun _ model _ => Ok ("answer from " +:+ model))
    (fun stored _ k =>
       Ok (QueryResult [map entry_document (take k stored)]
                       [map entry_metadata (take k stored)])).

(** ** The chat turn of [app.py]

    One entry of [st.session_state.messages]. *)
Record message : Type := Message { role : string; content : string }.

(** The block under [if prompt := st.chat_input(...)]: the messages of the
    session come in and go out; what the page shows is kept with what is
    printed.  The block runs only for a prompt that is not empty. *)
Definition answer_prompt {scalar : Type} (svc : services scalar)
  (CURRENT_MODEL prompt : string) (messages : list message)
  : M scalar (list message) :=
  if Py.truthy_str prompt then
    print prompt;;
    let messages' := messages ++ [Message "user" prompt] in
    try_except
      (collection ← get_collection collection_name;
       response ← query_rag_system svc CURRENT_MODEL collection prompt;
       print response;;
       mret (messages' ++ [Message "assistant" response]))
      (fun e =>
         let error_msg := "⚠️ Error: " +:+ e in
         print error_msg;;
         mret (messages' ++ [Message "assistant" error_msg]))
  else mret messages.

(** ** Further vocabulary *)

(** A line that ends the command-line loop. *)
Definition is_quit (user_q : string) : bool :=
  Py.list_in (Py.lower user_q) ["quit"; "exit"].

(** The message of the first exception met while reading a file, if any:
    that of opening it, or that of the first page whose extraction raises. *)
Fixpoint first_raise (pages : list (result string)) : option string :=
  match pages with
  | [] => None
  | Raise e :: _ => Some e
  | Ok _ :: pages' => first_raise pages'
  end.

Definition first_failure (pdf : pdf_file) : option string :=
  match reader pdf with
  | Raise e => Some e
  | Ok pages => first_raise pages
  end.

(** The line printed for a file that failed, if it did. *)
Definition failure_line (pdf : pdf_file) : option string :=
  match first_failure pdf with
  | Some e =>
      Some ("    Error reading " +:+ Py.basename (path pdf) +:+ ": " +:+ e)
  | None => None
  end.

(** The loader state after one file, and after a list of files. *)
Definition read_pdf_state (pdf : pdf_file) (st : chunk_state) : chunk_state :=
  match reader pdf with
  | Raise _ => st
  | Ok pages => (read_pages (Py.basename (path pdf)) 0 pages st).2
  end.

Definition read_all_state (pdf_files : list pdf_file) (st : chunk_state)
  : chunk_state :=
  fold_left (fun st' pdf => read_pdf_state pdf st') pdf_files st.

(** The three values the loader returns for the files found. *)
Definition loaded_lists (pdf_files : list pdf_file)
  : option (list string) * option (list metadata) * option (list string) :=
  match pdf_files with
  | [] => (None, None, None)
  | _ :: _ =>
      let st := read_all_state pdf_files (ChunkState [] [] [] 0) in
      (Some (documents st), Some (metadatas st), Some (ids st))
  end.

(** The lines the loader prints for the files found. *)
Definition loader_output (pdf_files : list pdf_file) : list string :=
  match pdf_files with
  | [] => [" No PDFs found. Please check your 'pdfs' folder."]
  | _ :: _ =>
      (" Found " +:+ Py.str (length pdf_files) +:+ " PDFs. Processing...")
      :: omap failure_line pdf_files
  end.

(** The chunk [doc] with metadata [meta] comes from one of the files: the
    source is the base name of the file, the page number is the 1-based
    position of a page of that file, and the chunk is a non-empty piece of
    at most [chunk_size] characters of the text of that page. *)
Definition comes_from (pdf_files : list pdf_file) (doc : string)
  (meta : metadata) : Prop :=
  exists pdf pages text,
    In pdf pdf_files /\
    source meta = Py.basename (path pdf) /\
    reader pdf = Ok pages /\
    1 <= page meta /\
    pages !! (page meta - 1) = Some (Ok text) /\
    occurs_in doc text /\
    0 < Py.len doc <= chunk_size.

(** Two files with the same base name and the same content. *)
Definition same_document (pdf1 pdf2 : pdf_file) : Prop :=
  Py.basename (path pdf1) = Py.basename (path pdf2) /\
  reader pdf1 = reader pdf2.

(** The computation [c] leaves the vector store and the files as they
    are. *)
Definition keeps_store {scalar A : Type} (c : M scalar A) : Prop :=
  forall w, chroma (c w).2 = chroma w /\ files (c w).2 = files w.

(** Services for the examples whose embedding never fails. *)
Definition reliable_services : services nat :=
  Services (models_list sample_services)
    (fun h _ text => Ok [[String.length text; length h]])
    (generate_content sample_services) (nearest sample_services).

(** * Properties *)

(** ** Arithmetic and strings *)

Lemma ceil_div_bounds (a b : Z) :
  (0 < b)%Z -> ((ceil_div a b - 1) * b < a <= ceil_div a b * b)%Z.
Proof.
  intros Hb. unfold ceil_div.
  pose proof (Z.div_mod (a + b - 1) b ltac:(lia)).
  pose proof (Z.mod_pos_bound (a + b - 1) b Hb). nia.
Qed.

Lemma ceil_div_unique (a b q : Z) :
  (0 < b)%Z -> ((q - 1) * b < a <= q * b)%Z -> q = ceil_div a b.
Proof.
  intros Hb Hq. pose proof (ceil_div_bounds a b Hb). nia.
Qed.

Lemma substring_length (s : string) n m :
  String.length (String.substring n m s) = Nat.min m (String.length s - n).
Proof.
  revert n m. induction s as [|c s IH]; intros [|n] [|m]; simpl; try reflexivity.
  - rewrite IH. f_equal. f_equal. lia.
  - apply IH.
  - apply IH.
Qed.

Lemma substring_clamp (s : string) n m :
  String.length s - n <= m ->
  String.substring n m s = String.substring n (String.length s - n) s.
Proof.
  revert n m. induction s as [|c s IH]; intros [|n] [|m] H; simpl in *;
    try reflexivity; try lia.
  - f_equal. rewrite (IH 0 m) by lia. f_equal. lia.
  - apply (IH n 0). lia.
  - apply (IH n (S m)). lia.
Qed.

Lemma substring_split (s : string) n a b :
  String.substring n (a + b) s
  = String.substring n a s +:+ String.substring (n + a) b s.
Proof.
  revert n a b. induction s as [|c s IH]; intros n a b.
  - destruct n, a, b; reflexivity.
  - destruct n as [|n]; [destruct a as [|a]|].
    + destruct b; reflexivity.
    + change (String c (String.substring 0 (a + b) s)
              = String c (String.substring 0 a s
                          +:+ String.substring (0 + a) b s)).
      f_equal. apply IH.
    + change (String.substring n (a + b) s
              = String.substring n a s +:+ String.substring (n + a) b s).
      apply IH.
Qed.

(** ** Ranges *)

Section RangeFacts.
Variable step : nat.
Hypothesis step_pos : 0 < step.

Lemma range_from_enough fuel fuel' i stop :
  stop - i <= fuel -> stop - i <= fuel' ->
  Py.range_from fuel i stop step = Py.range_from fuel' i stop step.
Proof.
  revert fuel' i. induction fuel as [|fuel IH]; intros [|fuel'] i H1 H2; simpl;
    try reflexivity.
  - destruct (Nat.ltb_spec i stop); [lia|reflexivity].
  - destruct (Nat.ltb_spec i stop); [lia|reflexivity].
  - destruct (Nat.ltb_spec i stop); [|reflexivity].
    f_equal. apply IH; lia.
Qed.

Lemma range_cons start stop :
  start < stop ->
  Py.range start stop step = start :: Py.range (start + step) stop step.
Proof.
  intros Hlt. unfold Py.range.
  destruct (stop - start) as [|d] eqn:Hd; [lia|].
  simpl. destruct (Nat.ltb_spec start stop); [|lia].
  f_equal. apply range_from_enough; lia.
Qed.

Lemma range_nil start stop : stop <= start -> Py.range start stop step = [].
Proof.
  intros Hle. unfold Py.range. replace (stop - start) with 0 by lia.
  reflexivity.
Qed.

Lemma range_multiples n k stop :
  (forall j, k <= j < k + n -> j * step < stop) ->
  stop <= (k + n) * step ->
  Py.range (k * step) stop step = map (fun j => j * step) (seq k n).
Proof.
  revert k. induction n as [|n IH]; intros k Hlo Hhi.
  - apply range_nil. replace (k + 0) with k in Hhi by lia. lia.
  - rewrite range_cons by (apply Hlo; lia). simpl. f_equal.
    replace (k * step + step) with (S k * step) by lia.
    apply IH.
    + intros j Hj. apply Hlo. lia.
    + replace (S k + n) with (k + S n) by lia. lia.
Qed.

(** The values of a range from zero: the multiples of the step below
    [stop]; their number is the ceiling of [stop / step]. *)
Lemma range_windows stop :
  exists n,
    Z.of_nat n = ceil_div (Z.of_nat stop) (Z.of_nat step) /\
    (forall k, k < n <-> k * step < stop) /\
    Py.range 0 stop step = map (fun j => j * step) (seq 0 n).
Proof.
  pose proof (ceil_div_bounds (Z.of_nat stop) (Z.of_nat step) ltac:(lia))
    as Hb.
  exists (Z.to_nat (ceil_div (Z.of_nat stop) (Z.of_nat step))).
  assert (Hpos : (0 <= ceil_div (Z.of_nat stop) (Z.of_nat step))%Z)
    by (apply Z.div_pos; lia).
  set (q := ceil_div (Z.of_nat stop) (Z.of_nat step)) in *.
  split; [apply Z2Nat.id; exact Hpos|].
  assert (Hk : forall k, k < Z.to_nat q <-> k * step < stop).
  { intros k. split; intros H; nia. }
  split; [exact Hk|].
  change 0 with (0 * step) at 1.
  apply range_multiples.
  - intros j Hj. apply Hk. lia.
  - nia.
Qed.

Lemma range_length stop :
  Z.of_nat (length (Py.range 0 stop step))
  = ceil_div (Z.of_nat stop) (Z.of_nat step).
Proof.
  destruct (range_windows stop) as (n & Hn & _ & Hr).
  rewrite Hr, length_map, length_seq. exact Hn.
Qed.

End RangeFacts.

(** ** The chunker *)

Lemma stride_value : chunk_size - overlap = 1500.
Proof. reflexivity. Qed.

Lemma window_substring text k :
  window text k = String.substring (k * 1500) 2000 text.
Proof.
  unfold window, Py.slice. rewrite stride_value. f_equal.
  unfold chunk_size. lia.
Qed.

Lemma map_const_seq {A : Type} (x : A) a n :
  map (fun _ => x) (seq a n) = replicate n x.
Proof.
  revert a. induction n as [|n IH]; intros a; simpl; [reflexivity|].
  f_equal. apply IH.
Qed.

Lemma fold_append_chunk filename page_num text starts st :
  let st' := fold_left (append_chunk filename page_num text) starts st in
  documents st'
  = documents st ++ map (fun i => Py.slice text i (i + chunk_size)) starts /\
  metadatas st'
  = metadatas st ++ map (fun _ => Metadata filename (page_num + 1)) starts /\
  ids st'
  = ids st ++ map (fun k => doc_id (id_counter st + k)) (seq 0 (length starts)) /\
  id_counter st' = id_counter st + length starts.
Proof.
  revert st. induction starts as [|i starts IH]; intros st; simpl.
  - rewrite !app_nil_r. repeat split; lia.
  - destruct (IH (append_chunk filename page_num text st i)) as (Hd & Hm & Hi & Hc).
    simpl in *. rewrite Hd, Hm, Hi, Hc, <- !app_assoc. simpl.
    repeat split; try lia.
    f_equal. unfold doc_id at 2. rewrite Nat.add_0_r. f_equal.
    rewrite <- seq_shift, map_map.
    apply map_ext. intros k. f_equal. lia.
Qed.

(** What the loop over one page appends: the windows [0 .. n-1], where [n]
    counts the multiples of the stride below the length of the text. *)
Lemma chunk_page_spec filename page_num text st :
  exists n,
    Z.of_nat n = chunk_count (Py.len text) /\
    (forall k, k < n <-> k * 1500 < Py.len text) /\
    documents (chunk_page filename page_num text st)
    = documents st ++ map (window text) (seq 0 n) /\
    metadatas (chunk_page filename page_num text st)
    = metadatas st ++ replicate n (Metadata filename (page_num + 1)) /\
    ids (chunk_page filename page_num text st)
    = ids st ++ map (fun k => doc_id (id_counter st + k)) (seq 0 n) /\
    id_counter (chunk_page filename page_num text st) = id_counter st + n.
Proof.
  destruct (range_windows 1500 ltac:(lia) (Py.len text)) as (n & Hn & Hk & Hr).
  exists n. split; [exact Hn|]. split; [exact Hk|].
  unfold chunk_page. rewrite stride_value, Hr.
  destruct (fold_append_chunk filename page_num text
              (map (fun j => j * 1500) (seq 0 n)) st) as (Hd & Hm & Hi & Hc).
  rewrite Hd, Hm, Hi, Hc, !length_map, !length_seq, !map_map.
  split; [|split; [|split]].
  - reflexivity.
  - f_equal. apply map_const_seq.
  - reflexivity.
  - reflexivity.
Qed.

Lemma chunk_count_stride L :
  chunk_count L = ceil_div (Z.of_nat L) 1500.
Proof. reflexivity. Qed.

(** C1 (amended): a page text of length [L > 0] gives exactly
    [ceil (L / (T - O))] chunks, that is [ceil (L / 1500)], and exactly one
    chunk whenever [L <= T - O = 1500]. *)
Theorem chunk_count_per_page filename page_num text st :
  0 < Py.len text ->
  Z.of_nat (length (documents (chunk_page filename page_num text st)))
  = (Z.of_nat (length (documents st)) + chunk_count (Py.len text))%Z /\
  (Py.len text <= chunk_size - overlap ->
   length (documents (chunk_page filename page_num text st))
   = length (documents st) + 1).
Proof.
  intros Hpos.
  destruct (chunk_page_spec filename page_num text st)
    as (n & Hn & Hk & Hd & _).
  rewrite Hd, length_app, length_map, length_seq. split; [lia|].
  rewrite stride_value. intros Hle. f_equal.
  assert (0 < n) by (apply Hk; lia).
  assert (~ 1 < n) by (intros H1; apply Hk in H1; lia).
  lia.
Qed.

Lemma chunk_count_per_page_witness :
  let text := filler 1200 "a"%char in
  length (documents (chunk_page "a.pdf" 0 text (ChunkState ["x"] [] [] 0)))
  = 2.
Proof.
  intros text.
  destruct (chunk_count_per_page "a.pdf" 0 text (ChunkState ["x"] [] [] 0))
    as [_ H]; [vm_compute; lia|].
  rewrite H; [reflexivity|vm_compute; lia].
Defined.

(** C1, as announced, fails: a page of 2000 characters is within the chunk
    size, the announced count is 1, and the loop produces 2 chunks. *)
Lemma announced_chunk_count_fails :
  let text := filler 2000 "a"%char in
  let produced :=
    documents (chunk_page "a.pdf" 0 text (ChunkState [] [] [] 0)) in
  0 < Py.len text /\ Py.len text <= chunk_size /\
  announced_chunk_count (Py.len text) = 1%Z /\
  length produced = 2 /\
  Z.of_nat (length produced) <> announced_chunk_count (Py.len text).
Proof. vm_compute. repeat split; try lia; discriminate. Qed.

(** Where the announced count is right: everywhere but on the lengths
    that leave a last window of at most [O] characters. *)
Lemma announced_chunk_count_agrees L :
  0 < L ->
  announced_chunk_count L = chunk_count L <->
  ~ (1500 < L /\ 0 < L mod 1500 <= 500).
Proof.
  intros Hpos. unfold announced_chunk_count, chunk_count.
  change (Z.of_nat chunk_size - Z.of_nat overlap)%Z with 1500%Z.
  change (Z.of_nat overlap) with 500%Z.
  pose proof (Nat.div_mod_eq L 1500) as Hdm.
  pose proof (Nat.mod_upper_bound L 1500 ltac:(lia)) as Hr.
  set (q := L / 1500) in *. set (r := L mod 1500) in *.
  assert (Hb : ceil_div (Z.of_nat L) 1500
               = (Z.of_nat q + (if decide (r = 0)%nat then 0%Z else 1%Z))%Z).
  { symmetry. apply ceil_div_unique; [lia|]. destruct (decide (r = 0)%nat); lia. }
  assert (Ha : ceil_div (Z.max (Z.of_nat L - 500) 1) 1500
               = (if decide (L <= 1500)%nat then 1%Z
                  else (Z.of_nat q
                        + (if decide (r <= 500)%nat then 0%Z else 1%Z))%Z)).
  { symmetry. apply ceil_div_unique; [lia|].
    destruct (decide (L <= 1500)%nat); [lia|]. destruct (decide (r <= 500)%nat); lia. }
  rewrite Ha, Hb.
  destruct (decide (L <= 1500)%nat), (decide (r <= 500)%nat), (decide (r = 0)%nat); lia.
Qed.

Lemma window_length text k :
  Py.len (window text k) = Nat.min 2000 (Py.len text - k * 1500).
Proof. rewrite window_substring. apply substring_length. Qed.

(** C2: the chunks of a page are the substrings [text[i:i+2000]] for the
    window starts [i = 0, 1500, 3000, ...] below the length of the text, in
    this order; a chunk is shorter than 2000 only where the text ends; and a
    page of 2200 characters gives the two chunks [0:2000) and [1500:2200). *)
Theorem chunks_are_windows filename page_num text st :
  (exists n,
     (forall k, k < n <-> k * 1500 < Py.len text) /\
     documents (chunk_page filename page_num text st)
     = documents st
       ++ map (fun k => Py.slice text (k * 1500) (k * 1500 + 2000)) (seq 0 n) /\
     (forall k, k < n ->
        Py.len (Py.slice text (k * 1500) (k * 1500 + 2000))
        = Nat.min 2000 (Py.len text - k * 1500))) /\
  (Py.len text = 2200 ->
   documents (chunk_page filename page_num text st)
   = documents st ++ [Py.slice text 0 2000; Py.slice text 1500 2200]).
Proof.
  destruct (chunk_page_spec filename page_num text st)
    as (n & _ & Hk & Hd & _).
  split.
  - exists n. split; [exact Hk|]. split; [exact Hd|].
    intros k _. apply (window_length text k).
  - intros HL. rewrite Hd. f_equal.
    assert (Hn : n = 2).
    { assert (1 < n) by (apply Hk; lia).
      assert (~ 2 < n) by (intros H2; apply Hk in H2; lia). lia. }
    subst n. change (seq 0 2) with [0; 1]. cbn [map].
    rewrite !window_substring. unfold Py.slice, Py.len in *.
    change (0 * 1500) with 0. change (1 * 1500) with 1500.
    rewrite (substring_clamp text 1500 2000) by lia.
    replace (String.length text - 1500) with 700 by lia.
    replace (2000 - 0) with 2000 by lia.
    replace (2200 - 1500) with 700 by lia.
    reflexivity.
Qed.

Lemma chunks_are_windows_witness :
  let text := filler 2200 "a"%char in
  documents (chunk_page "a.pdf" 0 text (ChunkState [] [] [] 0))
  = [Py.slice text 0 2000; Py.slice text 1500 2200].
Proof.
  intros text.
  apply (proj2 (chunks_are_windows "a.pdf" 0 text (ChunkState [] [] [] 0))).
  vm_compute. reflexivity.
Defined.

(** C10: when the length of a page exceeds 1500 and leaves a remainder
    between 1 and 500 modulo 1500, the last chunk of the page is a suffix of
    the chunk before it. *)
Theorem last_chunk_within_previous filename page_num text st :
  1500 < Py.len text ->
  0 < Py.len text mod 1500 <= 500 ->
  exists earlier prev last,
    documents (chunk_page filename page_num text st)
    = documents st ++ earlier ++ [prev; last] /\
    is_suffix last prev.
Proof.
  intros HL Hmod.
  destruct (chunk_page_spec filename page_num text st)
    as (n & _ & Hk & Hd & _).
  pose proof (Nat.div_mod_eq (Py.len text) 1500) as Hdm.
  set (q := Py.len text / 1500) in *. set (r := Py.len text mod 1500) in *.
  assert (Hn : n = S (S (q - 1))).
  { assert (q < n) by (apply Hk; lia).
    assert (~ S q < n) by (intros H2; apply Hk in H2; lia). lia. }
  exists (map (window text) (seq 0 (q - 1))), (window text (q - 1)),
    (window text (S (q - 1))).
  split.
  - rewrite Hd, Hn. f_equal. rewrite 2!seq_S, 2!map_app, <- app_assoc.
    reflexivity.
  - rewrite !window_substring. unfold Py.len in *.
    exists (String.substring ((q - 1) * 1500) 1500 text).
    rewrite (substring_clamp text ((q - 1) * 1500) 2000) by lia.
    rewrite (substring_clamp text (S (q - 1) * 1500) 2000) by lia.
    replace (String.length text - (q - 1) * 1500)
      with (1500 + (String.length text - S (q - 1) * 1500)) by lia.
    rewrite substring_split. f_equal. f_equal. lia.
Qed.

Lemma last_chunk_within_previous_witness :
  let text := filler 1700 "a"%char in
  exists earlier prev last,
    documents (chunk_page "a.pdf" 0 text (ChunkState [] [] [] 0))
    = [] ++ earlier ++ [prev; last] /\
    is_suffix last prev.
Proof.
  intros text.
  apply (last_chunk_within_previous "a.pdf" 0 text (ChunkState [] [] [] 0));
    vm_compute; lia.
Defined.

(** ** The loader *)

#[export] Instance doc_id_inj : Inj (=) (=) doc_id.
Proof.
  intros j k H. unfold doc_id, Py.str in H.
  apply (inj (String.app "doc_")) in H. apply (inj pretty) in H. exact H.
Qed.

Lemma doc_ids_NoDup n : NoDup (map doc_id (seq 0 n)).
Proof.
  change (NoDup (doc_id <$> seq 0 n)).
  apply (NoDup_fmap_2 doc_id), NoDup_seq.
Qed.

Lemma numbered_init : numbered (ChunkState [] [] [] 0).
Proof. repeat split. Qed.

Lemma chunk_page_numbered filename page_num text st :
  numbered st -> numbered (chunk_page filename page_num text st).
Proof.
  intros (Hi & Hd & Hm).
  destruct (chunk_page_spec filename page_num text st)
    as (n & _ & _ & Hd' & Hm' & Hi' & Hc').
  unfold numbered. rewrite Hd', Hm', Hi', Hc', Hi.
  rewrite !length_app, length_map, length_seq, length_replicate, Hd, Hm.
  repeat split.
  rewrite seq_app, map_app. f_equal.
  rewrite <- (map_map (fun k => id_counter st + k) doc_id).
  f_equal. simpl.
  apply nth_ext with (d := 0) (d' := 0).
  - rewrite length_map, !length_seq. reflexivity.
  - intros k Hk. rewrite length_map, length_seq in Hk.
    rewrite (nth_indep _ 0 (id_counter st + 0))
      by (rewrite length_map, length_seq; exact Hk).
    rewrite (map_nth (fun k => id_counter st + k)), !seq_nth by exact Hk.
    lia.
Qed.

Lemma read_pages_numbered filename pages : forall page_num st,
  numbered st -> numbered (read_pages filename page_num pages st).2.
Proof.
  induction pages as [|[text|e] pages IH]; intros page_num st Hst; simpl.
  - exact Hst.
  - destruct (Py.truthy_str text); apply IH; [|exact Hst].
    apply chunk_page_numbered, Hst.
  - exact Hst.
Qed.

Lemma read_pages_textless filename pages : forall page_num st,
  Forall (fun p => match p with
                   | Ok text => text = EmptyString
                   | Raise _ => True
                   end) pages ->
  (read_pages filename page_num pages st).2 = st.
Proof.
  induction pages as [|[text|e] pages IH]; intros page_num st Hall; simpl;
    try reflexivity.
  inversion Hall as [|? ? Htext Hrest]; subst. simpl. apply IH, Hrest.
Qed.

Section Loader.
Context {scalar : Type}.
Implicit Types w : world scalar.

(** One file: the new loader state and what is printed do not depend on the
    world, and nothing but the output changes. *)
Lemma read_pdf_run pdf st :
  exists st' out,
    (forall w, read_pdf pdf st w
               = (Ok st', World (stdout w ++ out) (chroma w) (calls w) (files w))) /\
    (numbered st -> numbered st') /\
    (textless pdf -> st' = st).
Proof.
  unfold read_pdf, textless. destruct (reader pdf) as [pages|e].
  - pose proof (read_pages_numbered (Py.basename (path pdf)) pages 0 st) as Hn.
    pose proof (read_pages_textless (Py.basename (path pdf)) pages 0 st) as Ht.
    destruct (read_pages (Py.basename (path pdf)) 0 pages st) as [[[]|e] st'];
      simpl in *.
    + exists st', []. split; [|split; assumption].
      intros w. unfold mret, M_ret. rewrite app_nil_r. destruct w; reflexivity.
    + eexists st', [_]. split; [|split; assumption].
      intros w. reflexivity.
  - eexists st, [_]. split; [|split; auto]. intros w. reflexivity.
Qed.

Lemma read_all_run pdf_files : forall st,
  exists st' out,
    (forall w, for_each pdf_files read_pdf st w
               = (Ok st', World (stdout w ++ out) (chroma w) (calls w) (files w))) /\
    (numbered st -> numbered st') /\
    (Forall textless pdf_files -> st' = st).
Proof.
  induction pdf_files as [|pdf pdf_files IH]; intros st.
  - exists st, []. split; [|split; auto].
    intros w. simpl. unfold mret, M_ret. rewrite app_nil_r.
    destruct w; reflexivity.
  - destruct (read_pdf_run pdf st) as (st1 & out1 & Hrun1 & Hn1 & Ht1).
    destruct (IH st1) as (st2 & out2 & Hrun2 & Hn2 & Ht2).
    exists st2, (out1 ++ out2). split; [|split].
    + intros w. simpl. unfold mbind, M_bind. rewrite Hrun1, Hrun2. simpl.
      rewrite app_assoc. reflexivity.
    + auto.
    + intros Hall. inversion Hall; subst. rewrite Ht2, Ht1; auto.
Qed.

(** The loader never raises; its value is a function of the files found,
    and it changes nothing but the output. *)
Lemma load_and_chunk_pdfs_run (pdf_files : list pdf_file) :
  exists res out,
    (forall folder_name w,
       files w folder_name = pdf_files ->
       load_and_chunk_pdfs folder_name w
       = (Ok res, World (stdout w ++ out) (chroma w) (calls w) (files w))) /\
    match pdf_files with
    | [] => res = (None, None, None)
    | _ :: _ =>
        exists st, numbered st /\
          res = (Some (documents st), Some (metadatas st), Some (ids st)) /\
          (Forall textless pdf_files -> st = ChunkState [] [] [] 0)
    end.
Proof.
  destruct pdf_files as [|pdf pdf_files].
  - eexists (None, None, None), [_]. split; [|reflexivity].
    intros folder_name w Hfiles. unfold load_and_chunk_pdfs, glob_pdfs.
    unfold mbind, M_bind. rewrite Hfiles. reflexivity.
  - destruct (read_all_run (pdf :: pdf_files) (ChunkState [] [] [] 0))
      as (st & out & Hrun & Hn & Ht).
    eexists (Some (documents st), Some (metadatas st), Some (ids st)), (_ :: out).
    split.
    + intros folder_name w Hfiles. unfold load_and_chunk_pdfs, glob_pdfs.
      unfold mbind at 1, M_bind at 1. rewrite Hfiles.
      unfold mbind at 1, M_bind at 1. unfold print at 1.
      unfold mbind at 1, M_bind at 1. rewrite Hrun. simpl.
      rewrite <- app_assoc. reflexivity.
    + exists st. split; [apply Hn, numbered_init|]. split; [reflexivity|exact Ht].
Qed.

End Loader.

Section LoaderClaims.
Context {scalar : Type}.
Implicit Types w : world scalar.

(** C3: when files are found, the identifiers returned by one run are
    exactly [doc_0, ..., doc_(n-1)] in order for the [n] chunks returned,
    without repeats, whichever files or pages fail on the way. *)
Theorem identifiers_contiguous folder_name w :
  0 < length (files w folder_name) ->
  exists docs metas idents,
    (load_and_chunk_pdfs folder_name w).1
    = Ok (Some docs, Some metas, Some idents) /\
    idents = map doc_id (seq 0 (length docs)) /\
    NoDup idents /\
    length metas = length docs.
Proof.
  intros Hfound.
  destruct (load_and_chunk_pdfs_run (scalar := scalar) (files w folder_name))
    as (res & out & Hrun & Hres).
  rewrite (Hrun folder_name w eq_refl).
  destruct (files w folder_name) as [|pdf rest]; [simpl in Hfound; lia|].
  destruct Hres as (st & (Hi & Hd & Hm) & -> & _).
  exists (documents st), (metadatas st), (ids st).
  split; [reflexivity|]. rewrite Hd. split; [exact Hi|].
  split; [rewrite Hi; apply doc_ids_NoDup|lia].
Qed.

(** C9: two runs of the loader that find the same files, with the same
    pages and texts, return the same chunk texts, metadata and identifiers,
    whatever else differs between the two states; the windows of a page
    are a function of its text. *)
Theorem chunking_deterministic folder_name w1 w2 :
  files w1 folder_name = files w2 folder_name ->
  (load_and_chunk_pdfs folder_name w1).1
  = (load_and_chunk_pdfs folder_name w2).1 /\
  exists res, (load_and_chunk_pdfs folder_name w1).1 = Ok res.
Proof.
  intros Hsame.
  destruct (load_and_chunk_pdfs_run (scalar := scalar) (files w1 folder_name))
    as (res & out & Hrun & _).
  rewrite (Hrun folder_name w1 eq_refl), (Hrun folder_name w2 (eq_sym Hsame)).
  split; [reflexivity|]. exists res. reflexivity.
Qed.

End LoaderClaims.

Lemma identifiers_contiguous_witness :
  exists docs metas idents,
    (load_and_chunk_pdfs "pdfs" sample_world).1
    = Ok (Some docs, Some metas, Some idents) /\
    idents = map doc_id (seq 0 (length docs)) /\
    NoDup idents /\
    length metas = length docs.
Proof. apply (identifiers_contiguous "pdfs" sample_world). simpl. lia. Defined.

Lemma chunking_deterministic_witness :
  let w2 : world nat :=
    World ["earlier output"] {["other" := []]} [ModelsList]
      (files sample_world) in
  (load_and_chunk_pdfs "pdfs" sample_world).1
  = (load_and_chunk_pdfs "pdfs" w2).1 /\
  exists res, (load_and_chunk_pdfs "pdfs" sample_world).1 = Ok res.
Proof.
  intros w2. apply (chunking_deterministic "pdfs" sample_world w2).
  reflexivity.
Defined.

(** ** Embedding and the rebuild of the vector store *)

Section Rebuild.
Context {scalar : Type} (svc : services scalar).
Implicit Types w : world scalar.

(** The helper never raises: a failure of the service becomes the empty
    vector and one warning. *)
Lemma get_gemini_embedding_run text w :
  get_gemini_embedding svc text w
  = (Ok (embedding_of (embed_content svc (calls w) "text-embedding-004" text)),
     World
       (stdout w
        ++ warning_of (embed_content svc (calls w) "text-embedding-004" text))
       (chroma w) (calls w ++ [embed_call text]) (files w)).
Proof.
  unfold get_gemini_embedding, try_except, client_models_embed_content.
  unfold mbind, M_bind, history, log_call, lift. simpl.
  destruct (embed_content svc (calls w) "text-embedding-004" text)
    as [[|values rest]|e]; simpl; try reflexivity.
  unfold mret, M_ret. rewrite app_nil_r. reflexivity.
Qed.

Lemma embeddings_from_app h texts1 texts2 :
  embeddings_from svc h (texts1 ++ texts2)
  = embeddings_from svc h texts1
    ++ embeddings_from svc (h ++ map embed_call texts1) texts2.
Proof.
  revert h. induction texts1 as [|text texts1 IH]; intros h; simpl.
  - rewrite app_nil_r. reflexivity.
  - rewrite IH, <- app_assoc. reflexivity.
Qed.

Lemma embeddings_from_length h texts :
  length (embeddings_from svc h texts) = length texts.
Proof.
  revert h. induction texts as [|text texts IH]; intros h; simpl;
    [reflexivity|]. rewrite IH. reflexivity.
Qed.

Lemma embeddings_from_lookup h texts j :
  j < length texts ->
  embeddings_from svc h texts !! j = Some (embedding_of (answer_at svc h texts j)).
Proof.
  revert h j. induction texts as [|text texts IH]; intros h j Hj; simpl in Hj;
    [lia|].
  destruct j as [|j]; simpl.
  - unfold answer_at. simpl. rewrite app_nil_r. reflexivity.
  - rewrite IH by lia. unfold answer_at. simpl. rewrite <- app_assoc.
    reflexivity.
Qed.

Lemma embed_docs_run batch_docs : forall embeddings w,
  exists out,
    embed_docs svc batch_docs embeddings w
    = (Ok (embeddings ++ embeddings_from svc (calls w) batch_docs),
       World (stdout w ++ out) (chroma w)
         (calls w ++ map embed_call batch_docs) (files w)).
Proof.
  unfold embed_docs.
  induction batch_docs as [|doc batch_docs IH]; intros embeddings w; simpl.
  - exists []. unfold mret, M_ret. rewrite !app_nil_r. destruct w; reflexivity.
  - unfold mbind at 1, M_bind at 1. unfold mbind at 1, M_bind at 1.
    rewrite get_gemini_embedding_run. unfold mret at 1, M_ret at 1.
    edestruct IH as (out & ->). eexists. simpl.
    rewrite <- !app_assoc. reflexivity.
Qed.

Lemma embed_batch_run docs i embeddings w :
  exists out,
    embed_batch svc docs i embeddings w
    = (Ok (embeddings
           ++ embeddings_from svc (calls w) (take batch_size (drop i docs))),
       World (stdout w ++ out) (chroma w)
         (calls w ++ map embed_call (take batch_size (drop i docs)))
         (files w)).
Proof.
  unfold embed_batch, Py.list_slice.
  replace (i + batch_size - i) with batch_size by lia.
  unfold mbind at 1, M_bind at 1.
  destruct (embed_docs_run (take batch_size (drop i docs)) embeddings w)
    as (out & ->).
  eexists. unfold mbind, M_bind, print, mret, M_ret. simpl.
  rewrite <- app_assoc. reflexivity.
Qed.

Lemma batch_size_pos : 0 < batch_size.
Proof. unfold batch_size. lia. Qed.

(** The loop over the batches embeds the documents from index [i] on, each
    once and in order. *)
Lemma embed_batches_run docs : forall n i embeddings w,
  length docs - i <= n ->
  exists out,
    for_each (Py.range i (length docs) batch_size) (embed_batch svc docs)
      embeddings w
    = (Ok (embeddings ++ embeddings_from svc (calls w) (drop i docs)),
       World (stdout w ++ out) (chroma w)
         (calls w ++ map embed_call (drop i docs)) (files w)).
Proof.
  induction n as [|n IH]; intros i embeddings w Hn.
  - rewrite (range_nil _ batch_size_pos) by lia. rewrite drop_ge by lia. exists []. simpl.
    unfold mret, M_ret. rewrite !app_nil_r. destruct w; reflexivity.
  - destruct (Nat.le_gt_cases (length docs) i) as [Hle|Hlt].
    + rewrite (range_nil _ batch_size_pos) by lia. rewrite drop_ge by lia. exists []. simpl.
      unfold mret, M_ret. rewrite !app_nil_r. destruct w; reflexivity.
    + rewrite (range_cons _ batch_size_pos) by lia. simpl.
      unfold mbind at 1, M_bind at 1.
      destruct (embed_batch_run docs i embeddings w) as (out1 & ->).
      edestruct (IH (i + batch_size)) as (out2 & ->);
        [unfold batch_size; lia|].
      eexists. simpl. rewrite <- !app_assoc.
      replace (drop (i + batch_size) docs)
        with (drop batch_size (drop i docs)) by apply drop_drop.
      rewrite <- embeddings_from_app, <- map_app, take_drop. reflexivity.
Qed.

(** The guarded deletion always succeeds and leaves no collection of the
    name, whether there was one or not. *)
Lemma drop_collection_run name w :
  try_except (delete_collection name) (fun _ => mret tt) w
  = (Ok tt,
     World (stdout w) (delete name (chroma w))
       (calls w ++ [DeleteCollection name]) (files w)).
Proof.
  unfold try_except, delete_collection, log_call, get_chroma, set_chroma, raise.
  unfold mbind, M_bind, mret, M_ret. simpl.
  destruct (chroma w !! name) eqn:Hlook; simpl; [reflexivity|].
  rewrite delete_id by exact Hlook. reflexivity.
Qed.

Lemma create_collection_run name w :
  chroma w !! name = None ->
  create_collection name w
  = (Ok name,
     World (stdout w) (<[name := []]> (chroma w))
       (calls w ++ [CreateCollection name]) (files w)).
Proof.
  intros Hlook.
  unfold create_collection, log_call, get_chroma, set_chroma, raise.
  unfold mbind, M_bind, mret, M_ret. simpl. rewrite Hlook. reflexivity.
Qed.

Lemma collection_add_run name stored docs embs metas idents w :
  chroma w !! name = Some stored ->
  collection_add name docs embs metas idents w
  = (if add_accepts stored idents embs docs metas
     then Ok tt else Raise "add: lengths differ or identifiers repeat",
     World (stdout w)
       (if add_accepts stored idents embs docs metas
        then <[name := stored ++ make_entries idents embs docs metas]> (chroma w)
        else chroma w)
       (calls w ++ [CollectionAdd name docs embs metas idents]) (files w)).
Proof.
  intros Hlook.
  unfold collection_add, log_call, get_chroma, set_chroma, raise.
  unfold mbind, M_bind, mret, M_ret. simpl. rewrite Hlook.
  destruct (add_accepts stored idents embs docs metas); reflexivity.
Qed.

(** The whole rebuild, step by step: drop, create, embed every document in
    order, add. *)
Lemma setup_vector_db_run docs metas idents w :
  let h0 := calls w ++ [DeleteCollection collection_name;
                        CreateCollection collection_name] in
  let embeddings := embeddings_from svc h0 docs in
  let h1 := h0 ++ map embed_call docs
            ++ [CollectionAdd collection_name docs embeddings metas idents] in
  exists out,
    setup_vector_db svc docs metas idents w
    = if add_accepts [] idents embeddings docs metas
      then (Ok collection_name,
            World (stdout w ++ out ++ [" Database built successfully!"])
              (<[collection_name := make_entries idents embeddings docs metas]>
                 (chroma w))
              h1 (files w))
      else (Raise "add: lengths differ or identifiers repeat",
            World (stdout w ++ out) (<[collection_name := []]> (chroma w))
              h1 (files w)).
Proof.
  intros h0 embeddings h1. subst h1 embeddings h0. unfold setup_vector_db.
  unfold mbind at 1, M_bind at 1. rewrite drop_collection_run.
  unfold mbind at 1, M_bind at 1.
  rewrite create_collection_run by apply lookup_delete_eq.
  cbn [stdout chroma calls files]. rewrite insert_delete_eq.
  unfold mbind at 1, M_bind at 1. unfold print at 1.
  cbn [stdout chroma calls files].
  unfold mbind at 1, M_bind at 1.
  edestruct (embed_batches_run docs (length docs) 0 []) as (out & ->); [lia|].
  cbn [stdout chroma calls files]. rewrite drop_0, app_nil_l.
  unfold mbind at 1, M_bind at 1.
  rewrite (collection_add_run _ []) by apply lookup_insert_eq.
  cbn [stdout chroma calls files].
  rewrite <- !app_assoc. cbn [app].
  destruct (add_accepts [] _ _ docs metas).
  - unfold mbind, M_bind, print, mret, M_ret.
    cbn [stdout chroma calls files app]. rewrite insert_insert_eq.
    rewrite <- !app_assoc. eexists (_ :: out). reflexivity.
  - eexists (_ :: out). reflexivity.
Qed.

Lemma same_dimension_of (embs : list (vector scalar)) dim :
  Forall (fun e => length e = dim) embs -> same_dimension embs = true.
Proof.
  intros Hall. destruct embs as [|e embs]; [reflexivity|].
  inversion Hall as [|? ? He Hrest]; subst. simpl.
  apply forallb_forall. intros e' Hin.
  rewrite Forall_forall in Hrest.
  rewrite (Hrest e' (proj2 (list_elem_of_In _ _) Hin)).
  apply Nat.eqb_refl.
Qed.

(** What the store accepts into an empty collection. *)
Lemma add_accepts_fresh idents (embs : list (vector scalar)) docs metas dim :
  length embs = length idents -> length docs = length idents ->
  length metas = length idents -> NoDup idents ->
  0 < length idents -> 0 < dim ->
  Forall (fun e => length e = dim) embs ->
  add_accepts [] idents embs docs metas = true.
Proof.
  intros He Hd Hm Hnd Hsome Hdim Hall. unfold add_accepts. simpl.
  rewrite He, Hd, Hm, !Nat.eqb_refl. simpl.
  rewrite (bool_decide_eq_true_2 _ Hnd). simpl.
  destruct (Nat.eqb_spec (length idents) 0) as [Hz|_]; [lia|]. simpl.
  rewrite (same_dimension_of embs dim Hall), andb_true_r.
  apply forallb_forall. intros e Hin.
  rewrite Forall_forall in Hall.
  rewrite (Hall e (proj2 (list_elem_of_In _ _) Hin)).
  destruct (Nat.eqb_spec dim 0); [lia|reflexivity].
Qed.

(** The store refuses a batch that holds an empty vector. *)
Lemma add_refuses_empty_vector stored idents (embs : list (vector scalar))
  docs metas k :
  embs !! k = Some [] ->
  add_accepts stored idents embs docs metas = false.
Proof.
  intros Hk. unfold add_accepts.
  match goal with
  | |- context [forallb ?nonempty embs] =>
      assert (Hfalse : forallb nonempty embs = false)
  end.
  { apply not_true_is_false. intros Hall.
    rewrite forallb_forall in Hall.
    specialize (Hall [] (proj1 (list_elem_of_In _ _)
                           (list_elem_of_lookup_2 _ _ _ Hk))).
    discriminate Hall. }
  rewrite Hfalse, andb_false_r. reflexivity.
Qed.

(** C4 (code bug): the helper does what the claim says: when the embedding
    service raises for a text it returns the empty vector and prints a
    warning instead of raising.  The rebuild does not tolerate it: every
    document is still sent to the embedding service and the empty vector
    stands at the position of the document that failed, but the store
    refuses the batch, nothing around [add] catches the exception, and the
    rebuild raises after the old collection was dropped, leaving an empty
    one. *)
Theorem failed_embedding_aborts_rebuild docs metas idents w k e :
  (forall text w' e',
     embed_content svc (calls w') "text-embedding-004" text = Raise e' ->
     get_gemini_embedding svc text w'
     = (Ok [],
        World (stdout w' ++ [" Error embedding text: " +:+ e']) (chroma w')
          (calls w' ++ [embed_call text]) (files w'))) /\
  (let h0 := calls w ++ [DeleteCollection collection_name;
                         CreateCollection collection_name] in
   k < length docs ->
   answer_at svc h0 docs k = Raise e ->
   exists embeddings,
     length embeddings = length docs /\
     embeddings !! k = Some [] /\
     calls (setup_vector_db svc docs metas idents w).2
     = h0 ++ map embed_call docs
       ++ [CollectionAdd collection_name docs embeddings metas idents] /\
     (setup_vector_db svc docs metas idents w).1
     = Raise "add: lengths differ or identifiers repeat" /\
     chroma (setup_vector_db svc docs metas idents w).2 !! collection_name
     = Some []).
Proof.
  split.
  - intros text w' e' Hfail. rewrite get_gemini_embedding_run, Hfail.
    reflexivity.
  - intros h0 Hk Hfail.
    destruct (setup_vector_db_run docs metas idents w) as (out & Hrun).
    fold h0 in Hrun.
    assert (Hempty : embeddings_from svc h0 docs !! k = Some []).
    { rewrite embeddings_from_lookup by exact Hk. rewrite Hfail.
      reflexivity. }
    rewrite (add_refuses_empty_vector [] idents _ docs metas k Hempty)
      in Hrun.
    exists (embeddings_from svc h0 docs).
    rewrite Hrun. cbn [fst snd chroma calls].
    split; [apply embeddings_from_length|]. split; [exact Hempty|].
    split; [reflexivity|]. split; [reflexivity|apply lookup_insert_eq].
Qed.

(** C8: every rebuild first drops the collection of the fixed name, which
    succeeds whether or not there is one, then creates it empty, then
    embeds, then adds.  Afterwards the collection holds the tuples of this
    call and nothing of what it held before (or nothing at all, when the
    store refuses the tuples); the other collections are untouched. *)
Theorem rebuild_replaces_collection docs metas idents w :
  let r := setup_vector_db svc docs metas idents w in
  (try_except (delete_collection collection_name) (fun _ => mret tt) w).1
  = Ok tt /\
  exists embeddings,
    calls r.2
    = calls w
      ++ DeleteCollection collection_name
         :: CreateCollection collection_name
         :: map embed_call docs
      ++ [CollectionAdd collection_name docs embeddings metas idents] /\
    ((r.1 = Ok collection_name /\
      chroma r.2
      = <[collection_name := make_entries idents embeddings docs metas]>
          (chroma w)) \/
     (r.1 = Raise "add: lengths differ or identifiers repeat" /\
      chroma r.2 = <[collection_name := []]> (chroma w))).
Proof.
  intros r. split; [rewrite drop_collection_run; reflexivity|].
  destruct (setup_vector_db_run docs metas idents w) as (out & Hrun).
  subst r. eexists. rewrite Hrun.
  destruct (add_accepts [] idents _ docs metas); cbn [fst snd chroma calls].
  - split; [rewrite <- !app_assoc; reflexivity|]. left. split; reflexivity.
  - split; [rewrite <- !app_assoc; reflexivity|]. right. split; reflexivity.
Qed.

End Rebuild.

Lemma failed_embedding_aborts_rebuild_witness :
  let docs := ["alpha"; "beta"; "gamma"] in
  let metas := [Metadata "a.pdf" 1; Metadata "a.pdf" 3; Metadata "c.pdf" 1] in
  let idents := ["doc_0"; "doc_1"; "doc_2"] in
  let w : world nat :=
    World [] {[collection_name := [Entry "doc_0" [1; 2] "old" (Metadata "o.pdf" 1)]]}
      [] (fun _ => []) in
  let r := setup_vector_db sample_services docs metas idents w in
  exists embeddings,
    length embeddings = length docs /\
    embeddings !! 1 = Some [] /\
    calls r.2
    = (calls w ++ [DeleteCollection collection_name;
                   CreateCollection collection_name])
      ++ map embed_call docs
      ++ [CollectionAdd collection_name docs embeddings metas idents] /\
    r.1 = Raise "add: lengths differ or identifiers repeat" /\
    chroma r.2 !! collection_name = Some [].
Proof.
  intros docs metas idents w r.
  apply (proj2 (failed_embedding_aborts_rebuild sample_services docs metas
                  idents w 1 "quota exceeded")).
  - simpl. lia.
  - reflexivity.
Defined.

(** ** The two drivers *)

Section Drivers.
Context {scalar : Type} (svc : services scalar).
Implicit Types w : world scalar.

(** Every rebuild leaves a trace: its first call drops the collection. *)
Lemma rebuild_is_logged docs metas idents w :
  exists later,
    calls (setup_vector_db svc docs metas idents w).2
    = calls w ++ DeleteCollection collection_name :: later.
Proof.
  destruct (setup_vector_db_run svc docs metas idents w) as (out & ->).
  destruct (add_accepts [] idents _ docs metas); cbn [snd calls];
    rewrite <- !app_assoc; eexists; reflexivity.
Qed.

(** C5: when the folder holds no PDF file, or no page of its files gives
    text, the loader returns [None] (no file) or empty lists (no text)
    without raising, and neither driver starts the rebuild: no call leaves
    the program and the vector store is unchanged. *)
Theorem no_content_skips_rebuild CURRENT_MODEL user_input uploaded_files w :
  Forall textless (files w "pdfs") ->
  (exists docs metas idents,
     (load_and_chunk_pdfs "pdfs" w).1 = Ok (docs, metas, idents) /\
     Py.truthy docs = false /\
     (files w "pdfs" = [] -> docs = None /\ metas = None /\ idents = None) /\
     (files w "pdfs" <> [] ->
      docs = Some [] /\ metas = Some [] /\ idents = Some [])) /\
  (main svc CURRENT_MODEL user_input w).1 = Ok tt /\
  calls (main svc CURRENT_MODEL user_input w).2 = calls w /\
  chroma (main svc CURRENT_MODEL user_input w).2 = chroma w /\
  (process_and_ingest svc uploaded_files w).1 = Ok tt /\
  calls (process_and_ingest svc uploaded_files w).2 = calls w /\
  chroma (process_and_ingest svc uploaded_files w).2 = chroma w.
Proof.
  intros Htextless.
  destruct (load_and_chunk_pdfs_run (scalar := scalar) (files w "pdfs"))
    as (res & out & Hrun & Hres).
  assert (Hload : forall w', files w' = files w ->
            load_and_chunk_pdfs "pdfs" w'
            = (Ok res, World (stdout w' ++ out) (chroma w') (calls w')
                         (files w'))).
  { intros w' Hw'. apply Hrun. rewrite Hw'. reflexivity. }
  assert (Hfalsy : exists docs metas idents,
            res = (docs, metas, idents) /\ Py.truthy docs = false /\
            (files w "pdfs" = [] ->
             docs = None /\ metas = None /\ idents = None) /\
            (files w "pdfs" <> [] ->
             docs = Some [] /\ metas = Some [] /\ idents = Some [])).
  { destruct (files w "pdfs") as [|pdf rest].
    - subst res. exists None, None, None. repeat split; congruence.
    - destruct Hres as (st & _ & -> & Hst). rewrite (Hst Htextless).
      exists (Some []), (Some []), (Some []).
      repeat split; congruence. }
  destruct Hfalsy as (docs & metas & idents & -> & Hfalse & Hnone & Hempty).
  split.
  - exists docs, metas, idents. rewrite (Hload w eq_refl).
    repeat split; auto; apply Hnone || apply Hempty; assumption.
  - unfold main, process_and_ingest.
    unfold mbind, M_bind, print. cbn [stdout chroma calls files].
    rewrite !Hload by reflexivity. rewrite Hfalse.
    repeat split.
Qed.

End Drivers.

Lemma no_content_skips_rebuild_witness :
  let w : world nat :=
    World [] {[collection_name := []]} []
      (fun _ => [PdfFile "scan.pdf" (Ok [Ok EmptyString; Raise "broken"]);
                 PdfFile "notes.pdf" (Raise "not a PDF")]) in
  calls (main sample_services "gemini-1.5-pro" ["hello"] w).2 = calls w /\
  chroma (main sample_services "gemini-1.5-pro" ["hello"] w).2 = chroma w.
Proof.
  intros w.
  destruct (no_content_skips_rebuild sample_services "gemini-1.5-pro"
              ["hello"] 2 w) as (_ & _ & Hcalls & Hchroma & _).
  - repeat constructor.
  - split; assumption.
Defined.

(** ** Model selection *)

Lemma prefix_spec (p s : string) :
  String.prefix p s = true <-> exists rest, s = p +:+ rest.
Proof.
  revert s. induction p as [|c p IH]; intros s.
  - split; [intros _; exists s; reflexivity|intros _; destruct s; reflexivity].
  - destruct s as [|d s]; simpl.
    + split; [discriminate|intros (rest & H); discriminate].
    + destruct (ascii_dec c d) as [->|Hne].
      * rewrite IH. split; intros (rest & H); exists rest.
        -- rewrite H. reflexivity.
        -- change (String d s = String d (p +:+ rest)) in H. congruence.
      * split; [discriminate|]. intros (rest & H).
        change (String d s = String c (p +:+ rest)) in H. congruence.
Qed.

Lemma str_in_spec (sub s : string) :
  Py.str_in sub s = true <-> occurs_in sub s.
Proof.
  unfold occurs_in. induction s as [|c s IH]; cbn [Py.str_in].
  - rewrite orb_false_r, prefix_spec. split.
    + intros (rest & H). exists EmptyString, rest. exact H.
    + intros ([|d before] & after & H); [exists after; exact H|].
      discriminate.
  - rewrite orb_true_iff, prefix_spec, IH. split.
    + intros [(rest & H)|(before & after & H)].
      * exists EmptyString, rest. exact H.
      * exists (String c before), after. rewrite H. reflexivity.
    + intros ([|d before] & after & H).
      * left. exists after. exact H.
      * right. exists before, after.
        change (String c s = String d (before +:+ sub +:+ after)) in H.
        congruence.
Qed.

Lemma list_in_spec (x : string) (l : list string) :
  Py.list_in x l = true <-> In x l.
Proof.
  unfold Py.list_in. rewrite existsb_exists. split.
  - intros (y & Hy & Heq). apply String.eqb_eq in Heq. subst. exact Hy.
  - intros Hin. exists x. split; [exact Hin|apply String.eqb_refl].
Qed.

Lemma is_fallback_model_spec model :
  is_fallback_model model = true <-> generative model.
Proof.
  unfold is_fallback_model, generative.
  rewrite !andb_true_iff, !negb_true_iff, <- !not_true_iff_false,
    !str_in_spec.
  tauto.
Qed.

(** [find] gives the first item that passes the test. *)
Lemma find_first {A : Type} (f : A -> bool) (l : list A) :
  match find f l with
  | Some x =>
      exists before after,
        l = before ++ x :: after /\ f x = true /\
        forall y, In y before -> f y = false
  | None => forall y, In y l -> f y = false
  end.
Proof.
  induction l as [|a l IH]; simpl.
  - intros y [].
  - destruct (f a) eqn:Ha.
    + exists [], l. repeat split; [exact Ha|intros y []].
    + destruct (find f l) as [x|].
      * destruct IH as (before & after & -> & Hx & Hbefore).
        exists (a :: before), after. repeat split; [exact Hx|].
        intros y [<-|Hy]; [exact Ha|apply Hbefore, Hy].
      * intros y [<-|Hy]; [exact Ha|apply IH, Hy].
Qed.

Section Selection.
Context {scalar : Type} (svc : services scalar).
Implicit Types w : world scalar.

(** The detection never raises, lists the models once, and returns the
    model the specification selects. *)
Lemma get_best_available_model_run w :
  exists model out,
    get_best_available_model svc w
    = (Ok model,
       World (stdout w ++ out) (chroma w) (calls w ++ [ModelsList]) (files w))
    /\ selected (models_list svc (calls w)) model.
Proof.
  unfold get_best_available_model, try_except, detect_model,
    client_models_list.
  unfold mbind, M_bind, history, log_call, lift, print.
  cbn [stdout chroma calls files].
  destruct (models_list svc (calls w)) as [my_models|e].
  - pose proof (find_first (fun model => Py.list_in model my_models)
                  priority_list) as Hpref.
    destruct (find (fun model => Py.list_in model my_models) priority_list)
      as [model|].
    + destruct Hpref as (before & after & Hsplit & Hin & Hbefore).
      eexists model, [_; _]. split.
      * unfold mret, M_ret. cbn [stdout chroma calls files].
        rewrite <- ?app_assoc. reflexivity.
      * eapply selected_preferred; [exact Hsplit|apply list_in_spec, Hin|].
        intros m Hm Hlisted. apply list_in_spec in Hlisted.
        rewrite (Hbefore m Hm) in Hlisted. discriminate.
    + assert (Hnone : forall m, In m priority_list -> ~ In m my_models).
      { intros m Hm Hlisted. apply list_in_spec in Hlisted.
        rewrite (Hpref m Hm) in Hlisted. discriminate. }
      pose proof (find_first is_fallback_model my_models) as Hfall.
      destruct (find is_fallback_model my_models) as [model|].
      * destruct Hfall as (before & after & Hsplit & Hgen & Hbefore).
        eexists model, [_; _]. split.
        -- unfold mret, M_ret. cbn [stdout chroma calls files].
        rewrite <- ?app_assoc. reflexivity.
        -- eapply selected_fallback;
             [exact Hnone|exact Hsplit|apply is_fallback_model_spec, Hgen|].
           intros m Hm Hg. apply is_fallback_model_spec in Hg.
           rewrite (Hbefore m Hm) in Hg. discriminate.
      * eexists "gemini-1.5-pro", [_; _]. split.
        -- unfold mret, M_ret. cbn [stdout chroma calls files].
        rewrite <- ?app_assoc. reflexivity.
        -- apply selected_nothing; [exact Hnone|].
           intros m Hm Hg. apply is_fallback_model_spec in Hg.
           rewrite (Hfall m Hm) in Hg. discriminate.
  - eexists "gemini-1.5-pro", [_; _; _]. split.
    + unfold mret, M_ret. cbn [stdout chroma calls files].
        rewrite <- ?app_assoc. reflexivity.
    + apply selected_default.
Qed.

End Selection.

(** ** Calls made by a computation *)

Section Emits.
Context {scalar : Type} (P : call scalar -> Prop).

Lemma emits_same {A : Type} (c : M scalar A) :
  (forall w, calls (c w).2 = calls w) -> emits P c.
Proof.
  intros Hsame w. exists []. rewrite Hsame, app_nil_r. split; constructor.
Qed.

Lemma emits_ret {A : Type} (a : A) : emits P (mret a).
Proof. apply emits_same. reflexivity. Qed.

Lemma emits_raise {A : Type} (e : string) : emits P (raise (A := A) e).
Proof. apply emits_same. reflexivity. Qed.

Lemma emits_lift {A : Type} (r : result A) : emits P (lift r).
Proof. apply emits_same. reflexivity. Qed.

Lemma emits_print (s : string) : emits P (print s).
Proof. apply emits_same. reflexivity. Qed.

Lemma emits_history : emits P history.
Proof. apply emits_same. reflexivity. Qed.

Lemma emits_get_chroma : emits P (get_chroma scalar).
Proof. apply emits_same. reflexivity. Qed.

Lemma emits_set_chroma db : emits P (set_chroma scalar db).
Proof. apply emits_same. reflexivity. Qed.

Lemma emits_glob_pdfs folder_name : emits P (glob_pdfs folder_name).
Proof. apply emits_same. reflexivity. Qed.

Lemma emits_log_call (c : call scalar) : P c -> emits P (log_call c).
Proof.
  intros Hc w. exists [c]. split; [reflexivity|]. constructor; [exact Hc|constructor].
Qed.

Lemma emits_bind {A B : Type} (c : M scalar A) (k : A -> M scalar B) :
  emits P c -> (forall a, emits P (k a)) -> emits P (c ≫= k).
Proof.
  intros Hc Hk w. unfold mbind, M_bind.
  destruct (Hc w) as (new1 & Hcalls1 & Hall1).
  destruct (c w) as [[a|e] w1]; simpl in *.
  - destruct (Hk a w1) as (new2 & Hcalls2 & Hall2).
    exists (new1 ++ new2). rewrite Hcalls2, Hcalls1, app_assoc.
    split; [reflexivity|]. apply Forall_app; split; assumption.
  - exists new1. split; assumption.
Qed.

Lemma emits_try_except {A : Type} (c : M scalar A) (h : string -> M scalar A) :
  emits P c -> (forall e, emits P (h e)) -> emits P (try_except c h).
Proof.
  intros Hc Hh w. unfold try_except.
  destruct (Hc w) as (new1 & Hcalls1 & Hall1).
  destruct (c w) as [[a|e] w1]; simpl in *.
  - exists new1. split; assumption.
  - destruct (Hh e w1) as (new2 & Hcalls2 & Hall2).
    exists (new1 ++ new2). rewrite Hcalls2, Hcalls1, app_assoc.
    split; [reflexivity|]. apply Forall_app; split; assumption.
Qed.

Lemma emits_for_each {A S : Type} (l : list A) (body : A -> S -> M scalar S) :
  (forall x s, emits P (body x s)) -> forall s, emits P (for_each l body s).
Proof.
  intros Hbody. induction l as [|x l IH]; intros s; simpl.
  - apply emits_ret.
  - apply emits_bind; [apply Hbody|exact IH].
Qed.

Lemma emits_first_item {A : Type} (l : list A) : emits P (first_item l).
Proof. destruct l; [apply emits_raise|apply emits_ret]. Qed.

End Emits.

Create HintDb emits.

#[export] Hint Resolve emits_ret emits_raise emits_lift emits_print
  emits_history emits_get_chroma emits_set_chroma emits_glob_pdfs
  emits_first_item : emits.

(** One step of the analysis of the calls of a computation. *)
Ltac emits_step :=
  match goal with
  | |- emits _ (mbind _ _) => apply emits_bind; [|intros ?]
  | |- emits _ (try_except _ _) => apply emits_try_except; [|intros ?]
  | |- emits _ (for_each _ _ _) => apply emits_for_each; intros ? ?
  | |- emits _ (log_call _) => apply emits_log_call; exact I || reflexivity
  | |- emits _ (match ?x with _ => _ end) => destruct x
  | |- emits _ _ => solve [auto with emits]
  end.

Section ModelUse.
Context {scalar : Type} (svc : services scalar) (model : string).

Lemma emits_get_gemini_embedding text :
  emits (uses_model model) (get_gemini_embedding svc text).
Proof.
  unfold get_gemini_embedding, client_models_embed_content.
  repeat emits_step.
Qed.

Lemma emits_load_and_chunk_pdfs folder_name :
  emits (uses_model (scalar := scalar) model)
    (load_and_chunk_pdfs folder_name).
Proof.
  unfold load_and_chunk_pdfs. repeat emits_step.
  unfold read_pdf. repeat emits_step.
Qed.

Lemma emits_setup_vector_db docs metas idents :
  emits (uses_model model) (setup_vector_db svc docs metas idents).
Proof.
  unfold setup_vector_db, delete_collection, create_collection,
    collection_add, embed_batch, embed_docs.
  repeat first [apply emits_get_gemini_embedding | emits_step].
Qed.

Lemma emits_build_context retrieved_meta retrieved_docs :
  forall i context_text,
    emits (uses_model (scalar := scalar) model)
      (build_context i retrieved_docs retrieved_meta context_text).
Proof.
  induction retrieved_docs as [|doc retrieved_docs IH]; intros i context_text;
    simpl; repeat first [apply IH | emits_step].
Qed.

Lemma emits_query_rag_system collection question :
  emits (uses_model model)
    (query_rag_system svc model collection question).
Proof.
  unfold query_rag_system, collection_query, client_models_generate_content.
  repeat first [apply emits_get_gemini_embedding | apply emits_build_context
               | emits_step].
Qed.

Lemma emits_chat_loop collection user_input :
  emits (uses_model model) (chat_loop svc model collection user_input).
Proof.
  induction user_input as [|user_q user_input IH]; simpl;
    repeat first [apply IH | apply emits_query_rag_system | emits_step].
Qed.

Lemma emits_main user_input :
  emits (uses_model model) (main svc model user_input).
Proof.
  unfold main.
  repeat first [apply emits_load_and_chunk_pdfs | apply emits_setup_vector_db
               | apply emits_chat_loop | emits_step].
Qed.

End ModelUse.

Section SelectionClaim.
Context {scalar : Type} (svc : services scalar).
Implicit Types w : world scalar.

(** C6: the detection never raises and returns the model the specification
    selects for the answer of the listing call: the first preferred model
    that is listed, else the first listed model whose name contains "gemini"
    and neither "embedding" nor "vision", else (also when the listing
    raised) the default "gemini-1.5-pro".  With a credential, the script
    lists the models exactly once, at its start, and every later generation
    call uses the model selected then. *)
Theorem model_selected_once GEMINI_API_KEY user_input w :
  (exists model,
     (get_best_available_model svc w).1 = Ok model /\
     selected (models_list svc (calls w)) model) /\
  (Py.truthy_str (default EmptyString GEMINI_API_KEY) = true ->
   exists model later,
     (import_Pdfload svc GEMINI_API_KEY w).1 = Ok model /\
     selected (models_list svc (calls w)) model /\
     calls (run_script svc GEMINI_API_KEY user_input w).2
     = calls w ++ ModelsList :: later /\
     Forall (uses_model model) later).
Proof.
  destruct (get_best_available_model_run svc w)
    as (model & out & Hrun & Hsel).
  split.
  - exists model. rewrite Hrun. split; [reflexivity|exact Hsel].
  - intros Hkey.
    assert (Himport : import_Pdfload svc GEMINI_API_KEY
                      = get_best_available_model svc).
    { destruct GEMINI_API_KEY as [[|c key]|]; try discriminate Hkey.
      reflexivity. }
    unfold run_script. rewrite Himport.
    unfold mbind, M_bind. rewrite Hrun.
    destruct (emits_main svc model user_input
                (World (stdout w ++ out) (chroma w) (calls w ++ [ModelsList])
                   (files w))) as (later & Hcalls & Hall).
    exists model, later. split; [reflexivity|]. split; [exact Hsel|].
    split; [|exact Hall].
    rewrite Hcalls. cbn [calls]. rewrite <- app_assoc. reflexivity.
Qed.

End SelectionClaim.

Lemma model_selected_once_witness :
  exists model later,
    (import_Pdfload sample_services (Some "secret") sample_world).1
    = Ok model /\
    selected (models_list sample_services (calls sample_world)) model /\
    calls (run_script sample_services (Some "secret") ["What is beta?"; "quit"]
             sample_world).2
    = calls sample_world ++ ModelsList :: later /\
    Forall (uses_model model) later.
Proof.
  apply (proj2 (model_selected_once sample_services (Some "secret")
                  ["What is beta?"; "quit"] sample_world)).
  reflexivity.
Defined.

(** ** Retrieval *)

Lemma str_app_nil_r (s : string) : s +:+ EmptyString = s.
Proof.
  induction s as [|c s IH]; [reflexivity|].
  change (String c (s +:+ EmptyString) = String c s). rewrite IH. reflexivity.
Qed.

Lemma str_app_assoc (s1 s2 s3 : string) :
  (s1 +:+ s2) +:+ s3 = s1 +:+ (s2 +:+ s3).
Proof.
  induction s1 as [|c s1 IH]; [reflexivity|].
  change (String c ((s1 +:+ s2) +:+ s3) = String c (s1 +:+ (s2 +:+ s3))).
  rewrite IH. reflexivity.
Qed.

Section Retrieval.
Context {scalar : Type} (svc : services scalar).
Implicit Types w : world scalar.

(** The loop over the retrieved chunks appends one block per chunk, in the
    order of the list, when every chunk has its metadata. *)
Lemma build_context_run retrieved_meta retrieved_docs :
  forall i context_text w,
    i + length retrieved_docs <= length retrieved_meta ->
    exists out,
      build_context i retrieved_docs retrieved_meta context_text w
      = (Ok (context_text
             +:+ join (zip_with context_block retrieved_docs
                         (drop i retrieved_meta))),
         World (stdout w ++ out) (chroma w) (calls w) (files w)).
Proof.
  induction retrieved_docs as [|doc retrieved_docs IH];
    intros i context_text w Hlen; simpl in *.
  - exists []. unfold mret, M_ret. rewrite str_app_nil_r, app_nil_r.
    destruct w; reflexivity.
  - destruct (retrieved_meta !! i) as [meta|] eqn:Hmeta.
    2: { apply lookup_ge_None in Hmeta. lia. }
    rewrite (drop_S _ _ _ Hmeta). simpl.
    unfold mbind, M_bind, print. cbn [stdout chroma calls files].
    edestruct (IH (S i)) as (out & ->); [lia|].
    eexists (_ :: out). cbn [stdout chroma calls files].
    rewrite str_app_assoc, <- app_assoc. reflexivity.
Qed.

Lemma bind_run {A B : Type} (c : M scalar A) (k : A -> M scalar B) w :
  (c ≫= k) w
  = match c w with
    | (Ok a, w') => k a w'
    | (Raise e, w') => (Raise e, w')
    end.
Proof. reflexivity. Qed.

Lemma ret_run {A : Type} (a : A) w :
  (mret a : M scalar A) w = (Ok a, w).
Proof. reflexivity. Qed.

Lemma print_run (s : string) w :
  print s w = (Ok tt, World (stdout w ++ [s]) (chroma w) (calls w) (files w)).
Proof. reflexivity. Qed.

Lemma collection_query_run collection stored query_embeddings n_results w :
  chroma w !! collection = Some stored ->
  collection_query svc collection query_embeddings n_results w
  = (nearest svc stored query_embeddings n_results,
     World (stdout w) (chroma w)
       (calls w ++ [CollectionQuery collection query_embeddings n_results])
       (files w)).
Proof.
  intros Hstored. unfold collection_query, log_call, get_chroma, lift.
  rewrite !bind_run. cbn [chroma]. rewrite Hstored. reflexivity.
Qed.

Lemma generate_content_run model contents w :
  client_models_generate_content svc model contents w
  = (generate_content svc (calls w) model contents,
     World (stdout w) (chroma w)
       (calls w ++ [GenerateContent model contents]) (files w)).
Proof. reflexivity. Qed.

(** C7: a query embeds the question, asks the index for the 3 nearest
    chunks with that vector, and sends to the generation service a prompt
    whose context is the concatenation, in the order returned, of one block
    per returned chunk: a "Content: <text>" line, then a
    "Reference: [Source: <filename>, Page: <page>]" line, then an empty
    line.  Every returned chunk is in the context. *)
Theorem retrieval_builds_context CURRENT_MODEL collection question stored
  docs metas more_docs more_metas w :
  let query_embedding :=
    embedding_of (embed_content svc (calls w) "text-embedding-004" question) in
  let h := calls w ++ [embed_call question;
                       CollectionQuery collection [query_embedding] 3] in
  let context_text := join (zip_with context_block docs metas) in
  chroma w !! collection = Some stored ->
  nearest svc stored [query_embedding] 3
  = Ok (QueryResult (docs :: more_docs) (metas :: more_metas)) ->
  length docs <= length metas ->
  (query_rag_system svc CURRENT_MODEL collection question w).1
  = generate_content svc h CURRENT_MODEL (make_prompt context_text question) /\
  calls (query_rag_system svc CURRENT_MODEL collection question w).2
  = h ++ [GenerateContent CURRENT_MODEL (make_prompt context_text question)] /\
  (forall doc meta,
     context_block doc meta
     = "Content: " +:+ doc +:+ Py.nl
       +:+ "Reference: [Source: " +:+ source meta +:+ ", Page: "
       +:+ Py.str (page meta) +:+ "]" +:+ Py.nl +:+ Py.nl).
Proof.
  intros query_embedding h context_text Hstored Hnearest Hlen.
  assert (Hrun : exists out,
            query_rag_system svc CURRENT_MODEL collection question w
            = (generate_content svc h CURRENT_MODEL
                 (make_prompt context_text question),
               World (stdout w ++ out) (chroma w)
                 (h ++ [GenerateContent CURRENT_MODEL
                          (make_prompt context_text question)])
                 (files w))).
  { unfold query_rag_system.
    rewrite bind_run, get_gemini_embedding_run. fold query_embedding.
    rewrite bind_run, (collection_query_run _ stored) by exact Hstored.
    rewrite Hnearest. cbn [qr_documents qr_metadatas first_item].
    rewrite bind_run, ret_run, bind_run, ret_run, bind_run, print_run.
    rewrite bind_run.
    edestruct (build_context_run metas docs 0 EmptyString) as (out & ->);
      [simpl; lia|].
    rewrite drop_0, generate_content_run. cbn [stdout chroma calls files].
    change (EmptyString +:+ join (zip_with context_block docs metas))
      with context_text.
    subst h. rewrite <- !app_assoc. eexists. reflexivity. }
  destruct Hrun as (out & ->).
  split; [reflexivity|]. split; [reflexivity|].
  intros doc meta. unfold context_block, source_info.
  rewrite ?str_app_assoc. reflexivity.
Qed.

End Retrieval.

Lemma retrieval_builds_context_witness :
  let stored :=
    [Entry "doc_0" [5; 2] "alpha" (Metadata "a.pdf" 1);
     Entry "doc_1" [] "beta" (Metadata "a.pdf" 3)] in
  let w : world nat :=
    World [] {[collection_name := stored]} [] (fun _ => []) in
  let question := "What is beta?" in
  let h := [embed_call question;
            CollectionQuery collection_name [[13; 0]] 3] in
  let context_text :=
    context_block "alpha" (Metadata "a.pdf" 1)
    +:+ context_block "beta" (Metadata "a.pdf" 3) in
  (query_rag_system sample_services "gemini-1.5-pro" collection_name
     question w).1
  = Ok "answer from gemini-1.5-pro" /\
  calls (query_rag_system sample_services "gemini-1.5-pro" collection_name
           question w).2
  = h ++ [GenerateContent "gemini-1.5-pro" (make_prompt context_text question)].
Proof.
  intros stored w question h context_text.
  destruct (retrieval_builds_context sample_services "gemini-1.5-pro"
              collection_name question stored ["alpha"; "beta"]
              [Metadata "a.pdf" 1; Metadata "a.pdf" 3] [] [] w)
    as (Hvalue & Hcalls & _).
  - vm_compute. reflexivity.
  - reflexivity.
  - simpl. lia.
  - split; [exact Hvalue|exact Hcalls].
Defined.

(** ** The program on concrete inputs *)

Example range_2200 : Py.range 0 2200 1500 = [0; 1500].
Proof. reflexivity. Qed.

Example range_batches : Py.range 0 25 10 = [0; 10; 20].
Proof. reflexivity. Qed.

Example basename_nested : Py.basename "/srv/pdfs/sub/b.pdf" = "b.pdf".
Proof. reflexivity. Qed.

Example gemini_in_name : Py.str_in "gemini" "models/gemini-2.0-flash" = true.
Proof. reflexivity. Qed.

Example embedding_model_is_no_fallback :
  is_fallback_model "models/gemini-embedding-001" = false.
Proof. reflexivity. Qed.

(** One page of 2200 characters, from the folder to the three lists. *)
Example single_page_of_2200 :
  let text := filler 2200 "a"%char in
  let w : world nat :=
    World [] ∅ [] (fun _ => [PdfFile "/srv/pdfs/one.pdf" (Ok [Ok text])]) in
  (load_and_chunk_pdfs "pdfs" w).1
  = Ok (Some [Py.slice text 0 2000; Py.slice text 1500 2200],
        Some [Metadata "one.pdf" 1; Metadata "one.pdf" 1],
        Some ["doc_0"; "doc_1"]).
Proof. vm_compute. reflexivity. Qed.

(** The sample folder: the pages read before a failure keep their chunks,
    and the counter runs on across the files. *)
Example sample_load :
  (load_and_chunk_pdfs "pdfs" sample_world).1
  = Ok (Some ["alpha"; "beta"; "gamma"],
        Some [Metadata "a.pdf" 1; Metadata "a.pdf" 3; Metadata "c.pdf" 1],
        Some ["doc_0"; "doc_1"; "doc_2"]).
Proof. vm_compute. reflexivity. Qed.

Example sample_selection :
  (get_best_available_model sample_services sample_world).1
  = Ok "models/gemini-1.5-pro".
Proof. vm_compute. reflexivity. Qed.

Example fallback_selection :
  let svc : services nat :=
    Services (fun _ => Ok ["models/gemini-embedding-001";
                           "models/gemini-2.0-flash"; "models/gemini-pro"])
      (embed_content sample_services) (generate_content sample_services)
      (nearest sample_services) in
  (get_best_available_model svc sample_world).1 = Ok "models/gemini-2.0-flash".
Proof. vm_compute. reflexivity. Qed.

Example failed_listing_selection :
  let svc : services nat :=
    Services (fun _ => Raise "403 permission denied")
      (embed_content sample_services) (generate_content sample_services)
      (nearest sample_services) in
  (get_best_available_model svc sample_world).1 = Ok "gemini-1.5-pro" /\
  stdout (get_best_available_model svc sample_world).2
  = ["Auto-detecting available models...";
     " Auto-detect failed: 403 permission denied";
     " defaulting to 'gemini-1.5-pro'"].
Proof. vm_compute. split; reflexivity. Qed.

Example missing_credential :
  (run_script sample_services None ["quit"] sample_world).1
  = Raise " API Key missing! Make sure it is in your .env file.".
Proof. reflexivity. Qed.

(** A whole session on the sample folder with services that answer: the
    rebuild stores one vector per chunk and the answer comes from the model
    selected at the start. *)
Example reliable_session :
  let r := run_script reliable_services (Some "secret")
             ["What is beta?"; "QUIT"] sample_world in
  r.1 = Ok tt /\
  map entry_embedding (default [] (chroma r.2 !! collection_name))
  = [[5; 3]; [4; 4]; [5; 5]] /\
  last (stdout r.2) = Some (Py.nl +:+ "Ask a question (or 'quit'): ") /\
  In "answer from models/gemini-1.5-pro" (stdout r.2).
Proof. vm_compute. repeat split; auto 30. Qed.

(** The same session when the embedding of "beta" fails: the warning is
    printed, the store refuses the batch, and the script ends with the
    exception of [add] before any question is read; the collection is left
    empty. *)
Example sample_session :
  let r := run_script sample_services (Some "secret")
             ["What is beta?"; "QUIT"] sample_world in
  r.1 = Raise "add: lengths differ or identifiers repeat" /\
  chroma r.2 !! collection_name = Some [] /\
  In " Error embedding text: quota exceeded" (stdout r.2) /\
  last (calls r.2)
  = Some (CollectionAdd collection_name ["alpha"; "beta"; "gamma"]
            [[5; 3]; []; [5; 5]]
            [Metadata "a.pdf" 1; Metadata "a.pdf" 3; Metadata "c.pdf" 1]
            ["doc_0"; "doc_1"; "doc_2"]).
Proof. vm_compute. repeat split; auto 30. Qed.

(** * Further properties *)

(** ** Chunks of one page *)

Lemma substring_all (s : string) m :
  String.length s <= m -> String.substring 0 m s = s.
Proof.
  revert m. induction s as [|c s IH]; intros [|m] H; simpl in *;
    try reflexivity; try lia.
  f_equal. apply IH. lia.
Qed.

Lemma substring_substring (s : string) n b i a :
  i + a <= b ->
  String.substring i a (String.substring n b s) = String.substring (n + i) a s.
Proof.
  revert n b i a. induction s as [|c s IH]; intros n b i a Hle.
  - destruct n, b, i, a; reflexivity.
  - destruct n as [|n].
    + destruct b as [|b].
      * assert (i = 0) by lia. assert (a = 0) by lia. subst. reflexivity.
      * change (String.substring 0 (S b) (String c s))
          with (String c (String.substring 0 b s)).
        destruct i as [|i].
        -- destruct a as [|a]; [reflexivity|].
           change (String c (String.substring 0 a (String.substring 0 b s))
                   = String c (String.substring 0 a s)).
           f_equal. apply (IH 0 b 0 a). lia.
        -- change (String.substring i a (String.substring 0 b s)
                   = String.substring i a s).
           apply (IH 0 b i a). lia.
    + change (String.substring i a (String.substring n b s)
              = String.substring (n + i) a s).
      apply IH. exact Hle.
Qed.

Lemma substring_occurs (s : string) n m :
  occurs_in (String.substring n m s) s.
Proof.
  exists (String.substring 0 n s),
    (String.substring (n + m) (String.length s) s).
  rewrite <- substring_split.
  change n with (0 + n) at 2. rewrite <- substring_split.
  symmetry. apply substring_all. lia.
Qed.

Lemma lookup_map_seq {B : Type} (f : nat -> B) n k y :
  map f (seq 0 n) !! k = Some y -> k < n /\ y = f k.
Proof.
  change (map f (seq 0 n)) with (f <$> seq 0 n).
  rewrite list_lookup_fmap. intros H.
  destruct (seq 0 n !! k) as [j|] eqn:Hj; [|discriminate].
  apply lookup_seq in Hj as [-> Hlt]. simpl in H.
  split; [exact Hlt|congruence].
Qed.

(** The first [n] strides of a text, window by window. *)
Lemma strides_join text n :
  join (map (fun k => String.substring (k * 1500) 1500 text) (seq 0 n))
  = String.substring 0 (n * 1500) text.
Proof.
  induction n as [|n IH].
  - destruct text; reflexivity.
  - rewrite seq_S, map_app. simpl map.
    assert (Happ : forall l1 l2, join (l1 ++ l2) = join l1 +:+ join l2).
    { induction l1 as [|x l1 IH1]; intros l2; [reflexivity|].
      unfold join in *. simpl. rewrite IH1, str_app_assoc. reflexivity. }
    rewrite Happ, IH. unfold join at 1. simpl foldr.
    rewrite str_app_nil_r.
    replace (S n * 1500) with (n * 1500 + 1500) by lia.
    rewrite substring_split. reflexivity.
Qed.

(** X1: the chunks of a page cover its text: the first 1500 characters of
    each chunk, put end to end in the order of the chunks, give the text
    back. *)
Theorem chunks_cover_text filename page_num text st :
  exists new,
    documents (chunk_page filename page_num text st) = documents st ++ new /\
    join (map (fun chunk => Py.slice chunk 0 (chunk_size - overlap)) new)
    = text.
Proof.
  destruct (chunk_page_spec filename page_num text st)
    as (n & _ & Hk & Hd & _).
  exists (map (window text) (seq 0 n)). split; [exact Hd|].
  rewrite map_map, stride_value.
  rewrite (map_ext _ (fun k => String.substring (k * 1500) 1500 text)).
  - rewrite strides_join. apply substring_all.
    destruct (Nat.le_gt_cases (Py.len text) (n * 1500)) as [Hle|Hgt];
      [exact Hle|].
    apply Hk in Hgt. lia.
  - intros k. rewrite window_substring. unfold Py.slice.
    replace (1500 - 0) with 1500 by lia.
    rewrite substring_substring by lia. f_equal. lia.
Qed.

(** X2: consecutive chunks of a page overlap by [overlap] characters: what
    a chunk holds from its offset 1500 on is what the next chunk starts
    with. *)
Theorem consecutive_chunks_overlap filename page_num text st k chunk next :
  documents (chunk_page filename page_num text st)
    !! (length (documents st) + k) = Some chunk ->
  documents (chunk_page filename page_num text st)
    !! (length (documents st) + S k) = Some next ->
  Py.slice chunk (chunk_size - overlap) chunk_size = Py.slice next 0 overlap.
Proof.
  destruct (chunk_page_spec filename page_num text st)
    as (n & _ & _ & Hd & _).
  rewrite Hd, !lookup_app_r by lia.
  replace (length (documents st) + k - length (documents st)) with k by lia.
  replace (length (documents st) + S k - length (documents st)) with (S k)
    by lia.
  intros Hchunk Hnext.
  apply lookup_map_seq in Hchunk as [_ ->].
  apply lookup_map_seq in Hnext as [_ ->].
  rewrite !window_substring. unfold Py.slice. rewrite stride_value.
  unfold chunk_size, overlap.
  replace (2000 - 1500) with 500 by lia. replace (500 - 0) with 500 by lia.
  rewrite !substring_substring by lia. f_equal. lia.
Qed.

(** X3: no chunk is empty and none is longer than [chunk_size]. *)
Theorem chunk_sizes filename page_num text st k chunk :
  documents (chunk_page filename page_num text st)
    !! (length (documents st) + k) = Some chunk ->
  0 < Py.len chunk <= chunk_size.
Proof.
  destruct (chunk_page_spec filename page_num text st)
    as (n & _ & Hk & Hd & _).
  rewrite Hd, lookup_app_r by lia.
  replace (length (documents st) + k - length (documents st)) with k by lia.
  intros Hchunk.
  apply lookup_map_seq in Hchunk as [Hlt ->].
  apply Hk in Hlt. rewrite window_length. unfold chunk_size. lia.
Qed.

(** ** The loader, file by file *)

Lemma read_pages_outcome filename pages : forall page_num st,
  (read_pages filename page_num pages st).1
  = match first_raise pages with
    | Some e => Raise e
    | None => Ok tt
    end.
Proof.
  induction pages as [|[text|e] pages IH]; intros page_num st; simpl;
    try reflexivity.
  destruct (Py.truthy_str text); apply IH.
Qed.

Section LoaderValue.
Context {scalar : Type}.
Implicit Types w : world scalar.

Lemma read_pdf_value pdf st w :
  read_pdf pdf st w
  = (Ok (read_pdf_state pdf st),
     World (stdout w ++ option_list (failure_line pdf)) (chroma w) (calls w)
       (files w)).
Proof.
  unfold read_pdf, read_pdf_state, failure_line, first_failure.
  destruct (reader pdf) as [pages|e]; [|reflexivity].
  pose proof (read_pages_outcome (Py.basename (path pdf)) pages 0 st) as Hout.
  destruct (read_pages (Py.basename (path pdf)) 0 pages st) as [[[]|e] st'];
    simpl in Hout; destruct (first_raise pages) as [e'|]; try discriminate.
  - simpl. unfold mret, M_ret. rewrite app_nil_r. destruct w; reflexivity.
  - injection Hout as ->. reflexivity.
Qed.

Lemma read_all_value pdf_files : forall st w,
  for_each pdf_files read_pdf st w
  = (Ok (read_all_state pdf_files st),
     World (stdout w ++ omap failure_line pdf_files) (chroma w) (calls w)
       (files w)).
Proof.
  induction pdf_files as [|pdf pdf_files IH]; intros st w; simpl.
  - unfold mret, M_ret. rewrite app_nil_r. destruct w; reflexivity.
  - rewrite bind_run, read_pdf_value, IH. cbn [stdout chroma calls files].
    rewrite <- app_assoc. do 3 f_equal.
    destruct (failure_line pdf); reflexivity.
Qed.

(** The loader in one equation: its value and its output are functions of
    the files found, and it changes nothing else. *)
Lemma load_and_chunk_pdfs_value folder_name w :
  load_and_chunk_pdfs folder_name w
  = (Ok (loaded_lists (files w folder_name)),
     World (stdout w ++ loader_output (files w folder_name)) (chroma w)
       (calls w) (files w)).
Proof.
  unfold load_and_chunk_pdfs, glob_pdfs. rewrite bind_run.
  destruct (files w folder_name) as [|pdf rest] eqn:Hfiles; [reflexivity|].
  rewrite bind_run, print_run, bind_run, read_all_value.
  cbn [stdout chroma calls files]. rewrite ret_run, <- app_assoc.
  reflexivity.
Qed.

End LoaderValue.

(** *** Where the chunks come from *)

Lemma Forall2_windows (R : string -> metadata -> Prop) text meta a n :
  (forall k, a <= k < a + n -> R (window text k) meta) ->
  Forall2 R (map (window text) (seq a n)) (replicate n meta).
Proof.
  revert a. induction n as [|n IH]; intros a HR; simpl; constructor.
  - apply HR. lia.
  - apply IH. intros k Hk. apply HR. lia.
Qed.

Lemma chunk_page_related (R : string -> metadata -> Prop)
  filename page_num text st :
  Forall2 R (documents st) (metadatas st) ->
  (forall k, k * 1500 < Py.len text ->
     R (window text k) (Metadata filename (page_num + 1))) ->
  Forall2 R (documents (chunk_page filename page_num text st))
    (metadatas (chunk_page filename page_num text st)).
Proof.
  intros Hst HR.
  destruct (chunk_page_spec filename page_num text st)
    as (n & _ & Hk & Hd & Hm & _).
  rewrite Hd, Hm. apply Forall2_app; [exact Hst|].
  apply Forall2_windows. intros k Hlt. apply HR, Hk. lia.
Qed.

Lemma read_pages_related (R : string -> metadata -> Prop) filename pages :
  forall page_num st,
    Forall2 R (documents st) (metadatas st) ->
    (forall j text k,
       pages !! j = Some (Ok text) -> k * 1500 < Py.len text ->
       R (window text k) (Metadata filename (page_num + j + 1))) ->
    Forall2 R (documents (read_pages filename page_num pages st).2)
      (metadatas (read_pages filename page_num pages st).2).
Proof.
  induction pages as [|[text|e] pages IH]; intros page_num st Hst HR; simpl;
    try exact Hst.
  assert (Hrest : forall j text' k,
            pages !! j = Some (Ok text') -> k * 1500 < Py.len text' ->
            R (window text' k) (Metadata filename (S page_num + j + 1))).
  { intros j text' k Hj Hk.
    replace (S page_num + j + 1) with (page_num + S j + 1) by lia.
    apply HR; [exact Hj|exact Hk]. }
  destruct (Py.truthy_str text); apply IH; try exact Hrest; [|exact Hst].
  apply chunk_page_related; [exact Hst|].
  intros k Hk. replace (page_num + 1) with (page_num + 0 + 1) by lia.
  apply (HR 0 text k); [reflexivity|exact Hk].
Qed.

Lemma read_pdf_state_related pdf_files pdf st :
  In pdf pdf_files ->
  Forall2 (comes_from pdf_files) (documents st) (metadatas st) ->
  Forall2 (comes_from pdf_files) (documents (read_pdf_state pdf st))
    (metadatas (read_pdf_state pdf st)).
Proof.
  intros Hin Hst. unfold read_pdf_state.
  destruct (reader pdf) as [pages|e] eqn:Hreader; [|exact Hst].
  apply read_pages_related; [exact Hst|].
  intros j text k Hj Hk. exists pdf, pages, text. cbn [source page].
  split; [exact Hin|]. split; [reflexivity|]. split; [exact Hreader|].
  split; [lia|]. split; [replace (0 + j + 1 - 1) with j by lia; exact Hj|].
  split.
  - rewrite window_substring. apply substring_occurs.
  - rewrite window_length. unfold chunk_size. lia.
Qed.

Lemma read_all_state_related pdf_files : forall some_files st,
  (forall pdf, In pdf some_files -> In pdf pdf_files) ->
  Forall2 (comes_from pdf_files) (documents st) (metadatas st) ->
  Forall2 (comes_from pdf_files) (documents (read_all_state some_files st))
    (metadatas (read_all_state some_files st)).
Proof.
  induction some_files as [|pdf some_files IH]; intros st Hsub Hst; simpl.
  - exact Hst.
  - apply IH; [intros p Hp; apply Hsub; right; exact Hp|].
    apply read_pdf_state_related; [apply Hsub; left; reflexivity|exact Hst].
Qed.

Section LoaderFacts.
Context {scalar : Type}.
Implicit Types w : world scalar.

(** X4: every chunk returned by the loader is a piece of the page its
    metadata names: the source is the base name of one of the files found,
    the page number is the 1-based position of a page of that file (pages
    without text count), and the chunk is a non-empty substring of at most
    2000 characters of the text of that page. *)
Theorem chunks_come_from_pages folder_name w docs metas idents :
  (load_and_chunk_pdfs folder_name w).1
  = Ok (Some docs, Some metas, Some idents) ->
  Forall2 (comes_from (files w folder_name)) docs metas.
Proof.
  rewrite load_and_chunk_pdfs_value. cbn [fst]. unfold loaded_lists.
  destruct (files w folder_name) as [|pdf rest]; [discriminate|].
  intros [= <- <- _].
  apply (read_all_state_related (pdf :: rest) (pdf :: rest)
           (ChunkState [] [] [] 0)); [auto|constructor].
Qed.

(** X5: the loader never raises, makes no call and leaves the vector store
    alone; after the line that counts the files it prints one line per file
    that failed, in the order of the files, with the message of the first
    exception of that file. *)
Theorem loader_reports_failures folder_name w :
  0 < length (files w folder_name) ->
  exists lists,
    load_and_chunk_pdfs folder_name w
    = (Ok lists,
       World
         (stdout w
          ++ (" Found " +:+ Py.str (length (files w folder_name))
              +:+ " PDFs. Processing...")
          :: omap failure_line (files w folder_name))
         (chroma w) (calls w) (files w)).
Proof.
  intros Hfound. rewrite load_and_chunk_pdfs_value.
  exists (loaded_lists (files w folder_name)). unfold loader_output.
  destruct (files w folder_name); [simpl in Hfound; lia|reflexivity].
Qed.

Lemma read_all_state_app pdfs1 pdfs2 st :
  read_all_state (pdfs1 ++ pdfs2) st
  = read_all_state pdfs2 (read_all_state pdfs1 st).
Proof. unfold read_all_state. apply fold_left_app. Qed.

Lemma loaded_lists_nonempty pdf_files :
  0 < length pdf_files ->
  loaded_lists pdf_files
  = (let st := read_all_state pdf_files (ChunkState [] [] [] 0) in
     (Some (documents st), Some (metadatas st), Some (ids st))).
Proof. destruct pdf_files; simpl; [lia|reflexivity]. Qed.

(** X6: a file without text (it does not open, or its pages are empty or
    fail) changes nothing in what the loader returns: the result is the one
    of the folder without that file, as long as another file is left. *)
Theorem textless_file_is_skipped folder_name w1 w2 before pdf after :
  textless pdf ->
  0 < length (before ++ after) ->
  files w1 folder_name = before ++ pdf :: after ->
  files w2 folder_name = before ++ after ->
  (load_and_chunk_pdfs folder_name w1).1
  = (load_and_chunk_pdfs folder_name w2).1.
Proof.
  intros Htextless Hleft Hfiles1 Hfiles2.
  rewrite !load_and_chunk_pdfs_value, Hfiles1, Hfiles2. cbn [fst].
  rewrite !loaded_lists_nonempty
    by (rewrite ?length_app in *; simpl; lia).
  cbv zeta. rewrite !read_all_state_app.
  change (read_all_state (pdf :: after) ?st)
    with (read_all_state after (read_pdf_state pdf st)).
  assert (Hskip : forall st, read_pdf_state pdf st = st).
  { intros st. unfold read_pdf_state, textless in *.
    destruct (reader pdf); [|reflexivity].
    apply read_pages_textless, Htextless. }
  rewrite Hskip. reflexivity.
Qed.

Lemma read_pages_until_raise filename pages e later : forall page_num st,
  (read_pages filename page_num (pages ++ Raise e :: later) st).2
  = (read_pages filename page_num pages st).2.
Proof.
  induction pages as [|[text|e'] pages IH]; intros page_num st; simpl;
    try reflexivity.
  destruct (Py.truthy_str text); apply IH.
Qed.

(** X7: when the extraction of a page raises, the chunks of the earlier
    pages of the file are kept and every later page of the file is lost:
    the result is the one of the file cut before that page. *)
Theorem pages_after_failure_are_dropped folder_name w1 w2 before after
  file_path pages e later :
  files w1 folder_name
  = before ++ PdfFile file_path (Ok (pages ++ Raise e :: later)) :: after ->
  files w2 folder_name = before ++ PdfFile file_path (Ok pages) :: after ->
  (load_and_chunk_pdfs folder_name w1).1
  = (load_and_chunk_pdfs folder_name w2).1.
Proof.
  intros Hfiles1 Hfiles2.
  rewrite !load_and_chunk_pdfs_value, Hfiles1, Hfiles2. cbn [fst].
  rewrite !loaded_lists_nonempty by (rewrite length_app; simpl; lia).
  cbv zeta. rewrite !read_all_state_app.
  change (read_all_state (?pdf :: after) ?st)
    with (read_all_state after (read_pdf_state pdf st)).
  assert (Hcut : forall st,
            read_pdf_state
              (PdfFile file_path (Ok (pages ++ Raise e :: later))) st
            = read_pdf_state (PdfFile file_path (Ok pages)) st).
  { intros st. unfold read_pdf_state. cbn [reader path].
    apply read_pages_until_raise. }
  rewrite Hcut. reflexivity.
Qed.

Lemma read_all_state_same pdfs1 pdfs2 :
  Forall2 same_document pdfs1 pdfs2 ->
  forall st, read_all_state pdfs1 st = read_all_state pdfs2 st.
Proof.
  induction 1 as [|pdf1 pdf2 pdfs1 pdfs2 [Hname Hreader] _ IH]; intros st;
    [reflexivity|].
  simpl. rewrite IH. f_equal. unfold read_pdf_state.
  rewrite Hname, Hreader. reflexivity.
Qed.

(** X8: the folders of the files leave no trace: two listings whose files
    have, one by one, the same base name and the same content give the same
    chunks, metadata and identifiers. *)
Theorem directories_leave_no_trace folder_name w1 w2 :
  Forall2 same_document (files w1 folder_name) (files w2 folder_name) ->
  (load_and_chunk_pdfs folder_name w1).1
  = (load_and_chunk_pdfs folder_name w2).1.
Proof.
  intros Hsame. rewrite !load_and_chunk_pdfs_value. cbn [fst].
  pose proof (read_all_state_same _ _ Hsame (ChunkState [] [] [] 0)) as Hst.
  unfold loaded_lists.
  destruct Hsame; [reflexivity|]. rewrite Hst. reflexivity.
Qed.

End LoaderFacts.

(** ** Batches *)

Lemma batches_from {A : Type} (l : list A) : forall n i,
  length l - i <= n ->
  concat (map (fun j => Py.list_slice l j (j + batch_size))
            (Py.range i (length l) batch_size))
  = drop i l /\
  Forall (fun batch => 0 < length batch <= batch_size)
    (map (fun j => Py.list_slice l j (j + batch_size))
       (Py.range i (length l) batch_size)).
Proof.
  induction n as [|n IH]; intros i Hn.
  - rewrite (range_nil _ batch_size_pos) by lia. rewrite drop_ge by lia.
    split; [reflexivity|constructor].
  - destruct (Nat.le_gt_cases (length l) i) as [Hle|Hlt].
    + rewrite (range_nil _ batch_size_pos) by lia. rewrite drop_ge by lia.
      split; [reflexivity|constructor].
    + rewrite (range_cons _ batch_size_pos) by lia. simpl.
      destruct (IH (i + batch_size)) as [Hconcat Hsizes];
        [unfold batch_size; lia|].
      rewrite Hconcat.
      assert (Hslice : Py.list_slice l i (i + batch_size)
                       = take batch_size (drop i l)).
      { unfold Py.list_slice. f_equal. lia. }
      rewrite Hslice. split.
      * rewrite <- drop_drop. apply take_drop.
      * constructor; [|exact Hsizes].
        rewrite length_take, length_drop. unfold batch_size. lia.
Qed.

(** X9: the batches of a rebuild lose and repeat nothing: put end to end
    they are the list of documents, none of them is empty and none holds
    more than [batch_size] documents. *)
Theorem batches_partition (docs : list string) :
  concat (map (fun i => Py.list_slice docs i (i + batch_size))
            (Py.range 0 (length docs) batch_size))
  = docs /\
  Forall (fun batch_docs => 0 < length batch_docs <= batch_size)
    (map (fun i => Py.list_slice docs i (i + batch_size))
       (Py.range 0 (length docs) batch_size)).
Proof.
  destruct (batches_from docs (length docs) 0) as [Hconcat Hsizes]; [lia|].
  split; [rewrite Hconcat; apply drop_0|exact Hsizes].
Qed.

(** ** Computations that leave the store alone *)

Section KeepsStore.
Context {scalar : Type}.

Lemma keeps_ret {A : Type} (a : A) : keeps_store (mret a : M scalar A).
Proof. intros w. split; reflexivity. Qed.

Lemma keeps_raise {A : Type} (e : string) :
  keeps_store (raise e : M scalar A).
Proof. intros w. split; reflexivity. Qed.

Lemma keeps_lift {A : Type} (r : result A) : keeps_store (lift r : M scalar A).
Proof. intros w. split; reflexivity. Qed.

Lemma keeps_print (s : string) : keeps_store (print s : M scalar unit).
Proof. intros w. split; reflexivity. Qed.

Lemma keeps_history : keeps_store (history (scalar := scalar)).
Proof. intros w. split; reflexivity. Qed.

Lemma keeps_get_chroma : keeps_store (get_chroma scalar).
Proof. intros w. split; reflexivity. Qed.

Lemma keeps_log_call (c : call scalar) : keeps_store (log_call c).
Proof. intros w. split; reflexivity. Qed.

Lemma keeps_first_item {A : Type} (l : list A) :
  keeps_store (first_item l : M scalar A).
Proof. destruct l; [apply keeps_raise|apply keeps_ret]. Qed.

Lemma keeps_bind {A B : Type} (c : M scalar A) (k : A -> M scalar B) :
  keeps_store c -> (forall a, keeps_store (k a)) -> keeps_store (c ≫= k).
Proof.
  intros Hc Hk w. rewrite bind_run. destruct (Hc w) as [Hchroma Hfiles].
  destruct (c w) as [[a|e] w1]; simpl in *.
  - destruct (Hk a w1) as [Hchroma' Hfiles']. split; congruence.
  - split; assumption.
Qed.

Lemma keeps_try_except {A : Type} (c : M scalar A)
  (h : string -> M scalar A) :
  keeps_store c -> (forall e, keeps_store (h e)) ->
  keeps_store (try_except c h).
Proof.
  intros Hc Hh w. unfold try_except. destruct (Hc w) as [Hchroma Hfiles].
  destruct (c w) as [[a|e] w1]; simpl in *.
  - split; assumption.
  - destruct (Hh e w1) as [Hchroma' Hfiles']. split; congruence.
Qed.

End KeepsStore.

Create HintDb keeps.

#[export] Hint Resolve keeps_ret keeps_raise keeps_lift keeps_print
  keeps_history keeps_get_chroma keeps_log_call keeps_first_item : keeps.

(** One step of the proof that a computation leaves the store alone. *)
Ltac keeps_step :=
  match goal with
  | |- keeps_store (mbind _ _) => apply keeps_bind; [|intros ?]
  | |- keeps_store (try_except _ _) => apply keeps_try_except; [|intros ?]
  | |- keeps_store (match ?x with _ => _ end) => destruct x
  | |- keeps_store _ => solve [auto with keeps]
  end.

Section ReadOnly.
Context {scalar : Type} (svc : services scalar).
Implicit Types w : world scalar.

Lemma keeps_get_gemini_embedding text :
  keeps_store (get_gemini_embedding svc text).
Proof.
  unfold get_gemini_embedding, client_models_embed_content.
  repeat keeps_step.
Qed.

Lemma keeps_build_context retrieved_meta retrieved_docs :
  forall i context_text,
    keeps_store (scalar := scalar)
      (build_context i retrieved_docs retrieved_meta context_text).
Proof.
  induction retrieved_docs as [|doc retrieved_docs IH]; intros i context_text;
    simpl; repeat first [apply IH | keeps_step].
Qed.

Lemma keeps_query_rag_system CURRENT_MODEL collection question :
  keeps_store (query_rag_system svc CURRENT_MODEL collection question).
Proof.
  unfold query_rag_system, collection_query, client_models_generate_content.
  repeat first [apply keeps_get_gemini_embedding | apply keeps_build_context
               | keeps_step].
Qed.

Lemma keeps_chat_loop CURRENT_MODEL collection user_input :
  keeps_store (chat_loop svc CURRENT_MODEL collection user_input).
Proof.
  induction user_input as [|user_q user_input IH]; simpl;
    repeat first [apply IH | apply keeps_query_rag_system | keeps_step].
Qed.

Lemma keeps_answer_prompt CURRENT_MODEL prompt messages :
  keeps_store (answer_prompt svc CURRENT_MODEL prompt messages).
Proof.
  unfold answer_prompt, get_collection.
  repeat first [apply keeps_query_rag_system | keeps_step].
Qed.

(** X10: answering never changes the vector store or the files: neither a
    query, nor the command-line loop, nor a chat turn of the page. *)
Theorem answering_is_read_only CURRENT_MODEL collection question user_input
  messages w :
  chroma (query_rag_system svc CURRENT_MODEL collection question w).2
  = chroma w /\
  chroma (chat_loop svc CURRENT_MODEL collection user_input w).2 = chroma w /\
  chroma (answer_prompt svc CURRENT_MODEL question messages w).2 = chroma w.
Proof.
  split; [apply keeps_query_rag_system|].
  split; [apply keeps_chat_loop|apply keeps_answer_prompt].
Qed.

End ReadOnly.

(** ** The command-line loop *)

Section ChatLoop.
Context {scalar : Type} (svc : services scalar).
Implicit Types w : world scalar.

(** A block whose handler only prints ends normally. *)
Lemma try_print_ok (c : M scalar unit) (line : string -> string) w :
  (try_except c (fun e => print (line e)) w).1 = Ok tt.
Proof.
  unfold try_except. destruct (c w) as [[[]|e] w']; reflexivity.
Qed.

Lemma chat_loop_cons CURRENT_MODEL collection user_q user_input w :
  chat_loop svc CURRENT_MODEL collection (user_q :: user_input) w
  = (print (Py.nl +:+ "Ask a question (or 'quit'): ");;
     if is_quit user_q then mret tt
     else
       print "Thinking...";;
       try_except
         (answer ← query_rag_system svc CURRENT_MODEL collection user_q;
          print (Py.nl +:+ Py.str_mul "=" 50);;
          print "GEMINI ANSWER:";;
          print (Py.str_mul "=" 50);;
          print answer)
         (fun e => print (" An error occurred: " +:+ e));;
       chat_loop svc CURRENT_MODEL collection user_input) w.
Proof. reflexivity. Qed.

(** X11: the loop ends normally if and only if one of the lines typed is
    "quit" or "exit" in any letter case; otherwise it ends with the
    end-of-input exception.  No failure of a query ends it. *)
Theorem chat_loop_outcome CURRENT_MODEL collection user_input w :
  (chat_loop svc CURRENT_MODEL collection user_input w).1
  = if existsb is_quit user_input then Ok tt
    else Raise "EOF when reading a line".
Proof.
  revert w. induction user_input as [|user_q user_input IH]; intros w.
  - reflexivity.
  - rewrite chat_loop_cons. cbn [existsb].
    rewrite bind_run, print_run.
    destruct (is_quit user_q); [reflexivity|]. cbn [orb].
    rewrite bind_run, print_run, bind_run.
    match goal with
    | |- context [try_except ?c ?h ?w0] =>
        pose proof (try_print_ok c (fun e => " An error occurred: " +:+ e) w0)
          as Htry;
        destruct (try_except c h w0) as [r w1]
    end.
    simpl in Htry. subst r. apply IH.
Qed.

(** X12: what is typed after the line that quits is never read: it changes
    neither the result nor the output, the calls or the store. *)
Theorem input_after_quit_is_ignored CURRENT_MODEL collection before user_q
  after after' w :
  is_quit user_q = true ->
  chat_loop svc CURRENT_MODEL collection (before ++ user_q :: after) w
  = chat_loop svc CURRENT_MODEL collection (before ++ user_q :: after') w.
Proof.
  intros Hquit. revert w.
  induction before as [|line before IH]; intros w.
  - cbn [app]. rewrite !chat_loop_cons, Hquit. reflexivity.
  - cbn [app]. rewrite !chat_loop_cons, !bind_run, !print_run.
    destruct (is_quit line); [reflexivity|].
    rewrite !bind_run, !print_run, !bind_run.
    match goal with
    | |- context [try_except ?c ?h ?w0] =>
        destruct (try_except c h w0) as [[[]|e] w1]
    end; [apply IH|reflexivity].
Qed.

End ChatLoop.

(** ** Queries *)

Section Queries.
Context {scalar : Type} (svc : services scalar).
Implicit Types w : world scalar.

(** The loop over the retrieved chunks only prints. *)
Lemma build_context_effect retrieved_meta retrieved_docs :
  forall i context_text w,
    exists r out,
      build_context i retrieved_docs retrieved_meta context_text w
      = (r, World (stdout w ++ out) (chroma w) (calls w) (files w)).
Proof.
  induction retrieved_docs as [|doc retrieved_docs IH];
    intros i context_text w; simpl.
  - exists (Ok context_text), []. rewrite ret_run, app_nil_r.
    destruct w; reflexivity.
  - destruct (retrieved_meta !! i) as [meta|].
    + rewrite bind_run, print_run.
      edestruct (IH (S i)) as (r & out & ->). eexists r, (_ :: out).
      cbn [stdout chroma calls files]. rewrite <- app_assoc. reflexivity.
    + eexists (Raise _), []. unfold raise. rewrite app_nil_r.
      destruct w; reflexivity.
Qed.

(** A query, case by case: its calls are the embedding and the query of
    the index, then at most one generation call. *)
Lemma query_rag_system_cases CURRENT_MODEL collection question w :
  let query_embedding :=
    embedding_of (embed_content svc (calls w) "text-embedding-004" question) in
  let h := calls w ++ [embed_call question;
                       CollectionQuery collection [query_embedding] 3] in
  exists res out generation,
    query_rag_system svc CURRENT_MODEL collection question w
    = (res, World out (chroma w) (h ++ generation) (files w)) /\
    ((generation = [] /\ exists e, res = Raise e) \/
     (exists contents,
        generation = [GenerateContent CURRENT_MODEL contents] /\
        res = generate_content svc h CURRENT_MODEL contents)) /\
    (chroma w !! collection = None -> generation = []).
Proof.
  intros query_embedding h.
  assert (Hrun : exists res out calls' generation,
            query_rag_system svc CURRENT_MODEL collection question w
            = (res, World out (chroma w) calls' (files w)) /\
            calls' = h ++ generation /\
            ((generation = [] /\ exists e, res = Raise e) \/
             (exists contents,
                generation = [GenerateContent CURRENT_MODEL contents] /\
                res = generate_content svc h CURRENT_MODEL contents)) /\
            (chroma w !! collection = None -> generation = [])).
  { unfold query_rag_system.
    rewrite bind_run, get_gemini_embedding_run. fold query_embedding.
    rewrite bind_run.
    unfold collection_query, log_call, get_chroma, lift.
    rewrite !bind_run. cbn [stdout chroma calls files].
    rewrite <- app_assoc. cbn [app]. fold h.
    destruct (chroma w !! collection) as [stored|].
    2: { eexists _, _, _, []. split; [reflexivity|].
         split; [symmetry; apply app_nil_r|].
         split; [left; split; eauto|reflexivity]. }
    destruct (nearest svc stored [query_embedding] 3) as [results|e].
    2: { eexists _, _, _, []. split; [reflexivity|].
         split; [symmetry; apply app_nil_r|].
         split; [left; split; eauto|discriminate]. }
    destruct (qr_documents results) as [|docs more_docs].
    { eexists _, _, _, []. split; [reflexivity|].
      split; [symmetry; apply app_nil_r|].
      split; [left; split; eauto|discriminate]. }
    cbn [first_item]. rewrite bind_run, ret_run, bind_run.
    destruct (qr_metadatas results) as [|metas more_metas].
    { eexists _, _, _, []. split; [reflexivity|].
      split; [symmetry; apply app_nil_r|].
      split; [left; split; eauto|discriminate]. }
    cbn [first_item]. rewrite ret_run, bind_run, print_run, bind_run.
    match goal with
    | |- context [build_context 0 docs metas EmptyString ?w0] =>
        destruct (build_context_effect metas docs 0 EmptyString w0)
          as ([context_text|e] & out & ->)
    end; cbn [stdout chroma calls files].
    - rewrite generate_content_run. cbn [stdout chroma calls files].
      eexists _, _, _, [_]. split; [reflexivity|]. split; [reflexivity|].
      split; [right; eexists; split; reflexivity|discriminate].
    - eexists _, _, _, []. split; [reflexivity|].
      split; [symmetry; apply app_nil_r|].
      split; [left; split; eauto|discriminate]. }
  destruct Hrun as (res & out & calls' & generation & Hrun & -> & Hcases
                    & Hnone).
  exists res, out, generation. split; [exact Hrun|].
  split; [exact Hcases|exact Hnone].
Qed.

(** The loop over the retrieved chunks raises when a chunk has no
    metadata. *)
Lemma build_context_short retrieved_meta retrieved_docs :
  forall i context_text w,
    i <= length retrieved_meta ->
    length retrieved_meta < i + length retrieved_docs ->
    exists out,
      build_context i retrieved_docs retrieved_meta context_text w
      = (Raise "list index out of range",
         World (stdout w ++ out) (chroma w) (calls w) (files w)).
Proof.
  induction retrieved_docs as [|doc retrieved_docs IH];
    intros i context_text w Hi Hshort; simpl in *; [lia|].
  destruct (retrieved_meta !! i) as [meta|] eqn:Hmeta.
  - apply lookup_lt_Some in Hmeta.
    rewrite bind_run, print_run.
    edestruct (IH (S i)) as (out & ->); [lia|lia|].
    eexists (_ :: out). cbn [stdout chroma calls files].
    rewrite <- app_assoc. reflexivity.
  - exists []. unfold raise. rewrite app_nil_r. destruct w; reflexivity.
Qed.

(** X13: a query embeds the question and queries the index, in this order,
    whatever happens; it calls the generation service at most once, as its
    last call, and only when the retrieval gave a context: the collection
    exists, the query of the index succeeds, its two result lists are not
    empty and every returned chunk has its metadata.  The prompt is then
    built from the blocks of the returned chunks.  In every other case
    (missing collection, failed query, empty result lists, fewer metadata
    than documents) the query raises and nothing is generated. *)
Theorem generation_follows_retrieval CURRENT_MODEL collection question w :
  let r := query_rag_system svc CURRENT_MODEL collection question w in
  let query_embedding :=
    embedding_of (embed_content svc (calls w) "text-embedding-004" question) in
  let h := calls w ++ [embed_call question;
                       CollectionQuery collection [query_embedding] 3] in
  exists generation,
    calls r.2 = h ++ generation /\
    match chroma w !! collection with
    | None => generation = [] /\ exists e, r.1 = Raise e
    | Some stored =>
        match nearest svc stored [query_embedding] 3 with
        | Raise e => generation = [] /\ r.1 = Raise e
        | Ok results =>
            match qr_documents results, qr_metadatas results with
            | docs :: _, metas :: _ =>
                if decide (length docs <= length metas) then
                  let contents :=
                    make_prompt (join (zip_with context_block docs metas))
                      question in
                  generation = [GenerateContent CURRENT_MODEL contents] /\
                  r.1 = generate_content svc h CURRENT_MODEL contents
                else
                  generation = [] /\ r.1 = Raise "list index out of range"
            | _, _ =>
                generation = [] /\ r.1 = Raise "list index out of range"
            end
        end
    end.
Proof.
  intros r query_embedding h.
  assert (Hrun : exists res out calls' generation,
            query_rag_system svc CURRENT_MODEL collection question w
            = (res, World out (chroma w) calls' (files w)) /\
            calls' = h ++ generation /\
            match chroma w !! collection with
            | None => generation = [] /\ exists e, res = Raise e
            | Some stored =>
                match nearest svc stored [query_embedding] 3 with
                | Raise e => generation = [] /\ res = Raise e
                | Ok results =>
                    match qr_documents results, qr_metadatas results with
                    | docs :: _, metas :: _ =>
                        if decide (length docs <= length metas) then
                          let contents :=
                            make_prompt
                              (join (zip_with context_block docs metas))
                              question in
                          generation = [GenerateContent CURRENT_MODEL contents]
                          /\ res = generate_content svc h CURRENT_MODEL contents
                        else
                          generation = []
                          /\ res = Raise "list index out of range"
                    | _, _ =>
                        generation = []
                        /\ res = Raise "list index out of range"
                    end
                end
            end).
  { unfold query_rag_system.
    rewrite bind_run, get_gemini_embedding_run. fold query_embedding.
    rewrite bind_run.
    unfold collection_query, log_call, get_chroma, lift.
    rewrite !bind_run. cbn [stdout chroma calls files].
    rewrite <- app_assoc. cbn [app]. fold h.
    destruct (chroma w !! collection) as [stored|].
    2: { eexists _, _, _, []. split; [reflexivity|].
         split; [symmetry; apply app_nil_r|]. split; eauto. }
    destruct (nearest svc stored [query_embedding] 3) as [results|e].
    2: { eexists _, _, _, []. split; [reflexivity|].
         split; [symmetry; apply app_nil_r|]. split; reflexivity. }
    destruct (qr_documents results) as [|docs more_docs].
    { eexists _, _, _, []. split; [reflexivity|].
      split; [symmetry; apply app_nil_r|]. split; reflexivity. }
    cbn [first_item]. rewrite bind_run, ret_run, bind_run.
    destruct (qr_metadatas results) as [|metas more_metas].
    { eexists _, _, _, []. split; [reflexivity|].
      split; [symmetry; apply app_nil_r|]. split; reflexivity. }
    cbn [first_item]. rewrite ret_run, bind_run, print_run, bind_run.
    destruct (decide (length docs <= length metas)) as [Hle|Hgt].
    - match goal with
      | |- context [build_context 0 docs metas EmptyString ?w0] =>
          destruct (build_context_run metas docs 0 EmptyString w0)
            as (out & ->); [simpl; lia|]
      end.
      rewrite drop_0, generate_content_run. cbn [stdout chroma calls files].
      change (EmptyString +:+ join (zip_with context_block docs metas))
        with (join (zip_with context_block docs metas)).
      eexists _, _, _, [_]. split; [reflexivity|]. split; [reflexivity|].
      split; reflexivity.
    - match goal with
      | |- context [build_context 0 docs metas EmptyString ?w0] =>
          destruct (build_context_short metas docs 0 EmptyString w0)
            as (out & ->); [lia|simpl; lia|]
      end.
      eexists _, _, _, []. split; [reflexivity|].
      split; [symmetry; apply app_nil_r|]. split; reflexivity. }
  destruct Hrun as (res & out & calls' & generation & Hrun & -> & Hcases).
  subst r. rewrite Hrun. exists generation. cbn [fst snd calls].
  split; [reflexivity|exact Hcases].
Qed.

(** X14: a chat turn of the page never raises and adds exactly two
    messages, the prompt of the user and one reply of the assistant: the
    text the generation service returned, or the text of the exception
    after the prefix of the page.  Without the collection the reply is such
    an error and no call leaves the program. *)
Theorem chat_turn_adds_two_messages CURRENT_MODEL prompt messages w :
  Py.truthy_str prompt = true ->
  exists reply,
    (answer_prompt svc CURRENT_MODEL prompt messages w).1
    = Ok (messages ++ [Message "user" prompt; Message "assistant" reply]) /\
    ((exists e, reply = "⚠️ Error: " +:+ e) \/
     (exists h contents,
        generate_content svc h CURRENT_MODEL contents = Ok reply)) /\
    (chroma w !! collection_name = None ->
     (exists e, reply = "⚠️ Error: " +:+ e) /\
     calls (answer_prompt svc CURRENT_MODEL prompt messages w).2 = calls w).
Proof.
  intros Hprompt. unfold answer_prompt. rewrite Hprompt.
  rewrite bind_run, print_run. unfold try_except, get_collection, get_chroma.
  rewrite !bind_run. cbn [stdout chroma calls files].
  destruct (chroma w !! collection_name) as [stored|] eqn:Hstored.
  - rewrite ret_run, bind_run.
    match goal with
    | |- context [query_rag_system svc CURRENT_MODEL collection_name prompt ?w0] =>
        destruct (query_rag_system_cases CURRENT_MODEL collection_name
                    prompt w0)
          as ([response|e] & out & generation & -> & Hcases & _)
    end.
    + exists response. rewrite bind_run, print_run, ret_run.
      cbn [fst]. rewrite <- app_assoc. split; [reflexivity|].
      split; [|discriminate]. right.
      destruct Hcases as [(_ & e & He)|(contents & _ & Hgen)];
        [discriminate|eauto].
    + eexists. rewrite bind_run, print_run, ret_run.
      cbn [fst]. rewrite <- app_assoc. split; [reflexivity|].
      split; [left; eauto|discriminate].
  - unfold raise. eexists. rewrite bind_run, print_run, ret_run.
    cbn [fst snd calls]. rewrite <- app_assoc. split; [reflexivity|].
    split; [left; eauto|]. intros _. split; [eauto|reflexivity].
Qed.

End Queries.

(** ** From the folder to the store *)

Lemma make_entries_fields {scalar : Type} idents :
  forall (embs : list (vector scalar)) docs metas,
    length embs = length idents -> length docs = length idents ->
    length metas = length idents ->
    map entry_id (make_entries idents embs docs metas) = idents /\
    map entry_embedding (make_entries idents embs docs metas) = embs /\
    map entry_document (make_entries idents embs docs metas) = docs /\
    map entry_metadata (make_entries idents embs docs metas) = metas.
Proof.
  induction idents as [|i idents IH]; intros [|e embs] [|d docs] [|m metas];
    simpl; intros He Hd Hm; try discriminate; [repeat split|].
  destruct (IH embs docs metas) as (H1 & H2 & H3 & H4); try lia.
  rewrite H1, H2, H3, H4. repeat split.
Qed.

Section Ingest.
Context {scalar : Type} (svc : services scalar).
Implicit Types w : world scalar.

(** The vectors of documents that the service embeds with one dimension. *)
Lemma embeddings_from_dimension h docs dim :
  (forall j, j < length docs ->
     exists values rest,
       answer_at svc h docs j = Ok (values :: rest) /\ length values = dim) ->
  Forall (fun e => length e = dim) (embeddings_from svc h docs).
Proof.
  intros Hanswers. apply Forall_lookup. intros j e Hj.
  assert (Hlt : j < length docs).
  { apply lookup_lt_Some in Hj. rewrite embeddings_from_length in Hj.
    exact Hj. }
  rewrite embeddings_from_lookup in Hj by exact Hlt.
  destruct (Hanswers j Hlt) as (values & rest & Hanswer & Hdim).
  rewrite Hanswer in Hj. simpl in Hj. congruence.
Qed.

(** A rebuild with the lists of the loader is accepted by the store when
    every document is embedded, with vectors of one dimension. *)
Lemma rebuild_of_loaded st w dim :
  numbered st ->
  0 < id_counter st -> 0 < dim ->
  let h0 := calls w ++ [DeleteCollection collection_name;
                        CreateCollection collection_name] in
  (forall j, j < length (documents st) ->
     exists values rest,
       answer_at svc h0 (documents st) j = Ok (values :: rest) /\
       length values = dim) ->
  let embeddings := embeddings_from svc h0 (documents st) in
  exists out,
    setup_vector_db svc (documents st) (metadatas st) (ids st) w
    = (Ok collection_name,
       World (stdout w ++ out)
         (<[collection_name :=
              make_entries (ids st) embeddings (documents st) (metadatas st)]>
            (chroma w))
         (h0 ++ map embed_call (documents st)
          ++ [CollectionAdd collection_name (documents st) embeddings
                (metadatas st) (ids st)])
         (files w)).
Proof.
  intros (Hi & Hd & Hm) Hsome Hdim h0 Hanswers embeddings.
  destruct (setup_vector_db_run svc (documents st) (metadatas st) (ids st) w)
    as (out & Hrun).
  fold h0 in Hrun. fold embeddings in Hrun.
  assert (Hlen : length (ids st) = id_counter st)
    by (rewrite Hi, length_map, length_seq; reflexivity).
  rewrite (add_accepts_fresh _ _ _ _ dim) in Hrun.
  - exists (out ++ [" Database built successfully!"]). exact Hrun.
  - unfold embeddings. rewrite embeddings_from_length. lia.
  - lia.
  - lia.
  - rewrite Hi. apply doc_ids_NoDup.
  - lia.
  - exact Hdim.
  - apply embeddings_from_dimension. exact Hanswers.
Qed.

(** X15: when the loader returns chunks and the embedding service answers
    for each of them with a vector of one dimension, the lists of the
    loader are accepted by the store: the ingest of the page completes and
    the collection then holds exactly one tuple per chunk, in order, with
    the identifier, the text and the metadata of the chunk; after the
    command-line driver the collection holds the same tuples, whatever was
    asked in between. *)
Theorem ingest_stores_loaded_chunks CURRENT_MODEL user_input uploaded_files
  w docs metas idents dim :
  (load_and_chunk_pdfs "pdfs" w).1 = Ok (Some docs, Some metas, Some idents) ->
  0 < length docs ->
  0 < dim ->
  (forall j, j < length docs ->
     exists values rest,
       answer_at svc
         (calls w ++ [DeleteCollection collection_name;
                      CreateCollection collection_name]) docs j
       = Ok (values :: rest) /\
       length values = dim) ->
  exists stored,
    map entry_id stored = map doc_id (seq 0 (length docs)) /\
    map entry_document stored = docs /\
    map entry_metadata stored = metas /\
    Forall (fun e => length (entry_embedding e) = dim) stored /\
    (process_and_ingest svc uploaded_files w).1 = Ok tt /\
    chroma (process_and_ingest svc uploaded_files w).2 !! collection_name
    = Some stored /\
    chroma (main svc CURRENT_MODEL user_input w).2 !! collection_name
    = Some stored.
Proof.
  intros Hload Hdocs Hdim Hanswers.
  destruct (load_and_chunk_pdfs_run (scalar := scalar) (files w "pdfs"))
    as (res & out & Hrun & Hres).
  rewrite (Hrun "pdfs" w eq_refl) in Hload. cbn [fst] in Hload.
  injection Hload as ->.
  destruct (files w "pdfs") as [|pdf rest] eqn:Hfiles; [discriminate|].
  destruct Hres as (st & Hst & [= -> -> ->] & _).
  assert (Htruthy : Py.truthy (Some (documents st)) = true)
    by (destruct (documents st); [simpl in Hdocs; lia|reflexivity]).
  set (h0 := calls w ++ [DeleteCollection collection_name;
                         CreateCollection collection_name]) in *.
  set (embeddings := embeddings_from svc h0 (documents st)).
  exists (make_entries (ids st) embeddings (documents st) (metadatas st)).
  pose proof Hst as (Hi & Hd & Hm).
  assert (Hcount : 0 < id_counter st) by lia.
  destruct (make_entries_fields (ids st) embeddings (documents st)
              (metadatas st)) as (H1 & H2 & H3 & H4).
  { unfold embeddings. rewrite embeddings_from_length, Hi, length_map,
      length_seq. lia. }
  { rewrite Hi, length_map, length_seq. lia. }
  { rewrite Hi, length_map, length_seq. lia. }
  split; [rewrite H1, Hi, Hd; reflexivity|].
  split; [exact H3|]. split; [exact H4|].
  split.
  { pose proof (embeddings_from_dimension h0 (documents st) dim Hanswers)
      as Hall.
    fold embeddings in Hall. rewrite <- H2 in Hall.
    change (map entry_embedding ?l) with (entry_embedding <$> l) in Hall.
    apply Forall_fmap in Hall. exact Hall. }
  assert (Hloaded : forall w', files w' = files w -> calls w' = calls w ->
            exists w1,
              load_and_chunk_pdfs "pdfs" w'
              = (Ok (Some (documents st), Some (metadatas st), Some (ids st)),
                 w1) /\
              calls w1 = calls w /\ chroma w1 = chroma w').
  { intros w' Hf Hc. eexists. split.
    - apply Hrun. rewrite Hf. exact Hfiles.
    - split; [exact Hc|reflexivity]. }
  assert (Hrebuild : forall w1, calls w1 = calls w ->
            exists o,
              setup_vector_db svc (documents st) (metadatas st) (ids st) w1
              = (Ok collection_name,
                 World (stdout w1 ++ o)
                   (<[collection_name :=
                        make_entries (ids st) embeddings (documents st)
                          (metadatas st)]> (chroma w1))
                   (h0 ++ map embed_call (documents st)
                    ++ [CollectionAdd collection_name (documents st) embeddings
                          (metadatas st) (ids st)])
                   (files w1))).
  { intros w1 Hc1.
    destruct (rebuild_of_loaded st w1 dim Hst Hcount Hdim) as (o & Ho).
    - rewrite Hc1. exact Hanswers.
    - exists o. rewrite Ho, Hc1. reflexivity. }
  split; [|split].
  - unfold process_and_ingest. rewrite bind_run.
    destruct (Hloaded w eq_refl eq_refl) as (w1 & -> & Hc1 & _).
    cbv beta iota. rewrite Htruthy. unfold the_list, default.
    cbn [from_option id]. rewrite bind_run.
    destruct (Hrebuild w1 Hc1) as (o & ->). reflexivity.
  - unfold process_and_ingest. rewrite bind_run.
    destruct (Hloaded w eq_refl eq_refl) as (w1 & -> & Hc1 & Hch1).
    cbv beta iota. rewrite Htruthy. unfold the_list, default.
    cbn [from_option id]. rewrite bind_run.
    destruct (Hrebuild w1 Hc1) as (o & ->).
    rewrite print_run. cbn [snd chroma]. apply lookup_insert_eq.
  - unfold main. rewrite bind_run, print_run, bind_run.
    edestruct (Hloaded (World (stdout w ++ ["--- STEP 1: LOADING PDFS ---"])
                          (chroma w) (calls w) (files w)))
      as (w1 & -> & Hc1 & Hch1); [reflexivity|reflexivity|].
    cbv beta iota. rewrite Htruthy. unfold the_list, default.
    cbn [from_option id]. rewrite bind_run, print_run, bind_run.
    match goal with
    | |- context [setup_vector_db svc _ _ _ ?w2] =>
        destruct (Hrebuild w2 Hc1) as (o & ->)
    end.
    rewrite bind_run, print_run.
    match goal with
    | |- context [chat_loop svc ?m ?c ?u ?w3] =>
        destruct (keeps_chat_loop svc m c u w3) as [-> _]
    end.
    cbn [chroma calls]. apply lookup_insert_eq.
Qed.

End Ingest.

(** ** The further properties on concrete inputs *)

Lemma consecutive_chunks_overlap_witness :
  let text := Py.str_mul "0123456789" 220 in
  Py.slice (Py.slice text 0 2000) (chunk_size - overlap) chunk_size
  = Py.slice (Py.slice text 1500 3500) 0 overlap.
Proof.
  intros text.
  apply (consecutive_chunks_overlap "a.pdf" 0 text (ChunkState [] [] [] 0) 0);
    vm_compute; reflexivity.
Defined.

Lemma chunk_sizes_witness :
  let text := Py.str_mul "0123456789" 220 in
  0 < Py.len (Py.slice text 1500 3500) <= chunk_size.
Proof.
  intros text.
  apply (chunk_sizes "a.pdf" 0 text (ChunkState [] [] [] 0) 1).
  vm_compute. reflexivity.
Defined.

Lemma chunks_come_from_pages_witness :
  Forall2 (comes_from sample_files) ["alpha"; "beta"; "gamma"]
    [Metadata "a.pdf" 1; Metadata "a.pdf" 3; Metadata "c.pdf" 1].
Proof.
  apply (chunks_come_from_pages "pdfs" sample_world _ _
           ["doc_0"; "doc_1"; "doc_2"]).
  vm_compute. reflexivity.
Defined.

Lemma loader_reports_failures_witness :
  exists lists,
    load_and_chunk_pdfs "pdfs" sample_world
    = (Ok lists,
       World [" Found 3 PDFs. Processing...";
              "    Error reading a.pdf: bad page";
              "    Error reading b.pdf: not a PDF"]
         (chroma sample_world) (calls sample_world) (files sample_world)).
Proof.
  apply (loader_reports_failures "pdfs" sample_world). simpl. lia.
Defined.

Lemma textless_file_is_skipped_witness :
  let w2 : world nat :=
    World [] ∅ [] (fun _ =>
      [PdfFile "/srv/pdfs/a.pdf"
         (Ok [Ok "alpha"; Ok EmptyString; Ok "beta"; Raise "bad page";
              Ok "lost"]);
       PdfFile "/srv/pdfs/c.pdf" (Ok [Ok "gamma"])]) in
  (load_and_chunk_pdfs "pdfs" sample_world).1
  = (load_and_chunk_pdfs "pdfs" w2).1.
Proof.
  intros w2.
  apply (textless_file_is_skipped "pdfs" sample_world w2
           [PdfFile "/srv/pdfs/a.pdf"
              (Ok [Ok "alpha"; Ok EmptyString; Ok "beta"; Raise "bad page";
                   Ok "lost"])]
           (PdfFile "/srv/pdfs/sub/b.pdf" (Raise "not a PDF"))
           [PdfFile "/srv/pdfs/c.pdf" (Ok [Ok "gamma"])]).
  - exact I.
  - simpl. lia.
  - reflexivity.
  - reflexivity.
Defined.

Lemma pages_after_failure_are_dropped_witness :
  let w2 : world nat :=
    World [] ∅ [] (fun _ =>
      [PdfFile "/srv/pdfs/a.pdf" (Ok [Ok "alpha"; Ok EmptyString; Ok "beta"]);
       PdfFile "/srv/pdfs/sub/b.pdf" (Raise "not a PDF");
       PdfFile "/srv/pdfs/c.pdf" (Ok [Ok "gamma"])]) in
  (load_and_chunk_pdfs "pdfs" sample_world).1
  = (load_and_chunk_pdfs "pdfs" w2).1.
Proof.
  intros w2.
  apply (pages_after_failure_are_dropped "pdfs" sample_world w2 []
           [PdfFile "/srv/pdfs/sub/b.pdf" (Raise "not a PDF");
            PdfFile "/srv/pdfs/c.pdf" (Ok [Ok "gamma"])]
           "/srv/pdfs/a.pdf" [Ok "alpha"; Ok EmptyString; Ok "beta"]
           "bad page" [Ok "lost"]); reflexivity.
Defined.

Lemma directories_leave_no_trace_witness :
  let w1 : world nat :=
    World [] ∅ [] (fun _ =>
      [PdfFile "/srv/pdfs/2023/report.pdf" (Ok [Ok "income"])]) in
  let w2 : world nat :=
    World [] ∅ [] (fun _ =>
      [PdfFile "/srv/pdfs/2024/report.pdf" (Ok [Ok "income"])]) in
  (load_and_chunk_pdfs "pdfs" w1).1 = (load_and_chunk_pdfs "pdfs" w2).1.
Proof.
  intros w1 w2. apply (directories_leave_no_trace "pdfs" w1 w2).
  simpl. repeat constructor.
Defined.

Lemma input_after_quit_is_ignored_witness :
  chat_loop sample_services "gemini-1.5-pro" collection_name
    ["What is beta?"; "Exit"; "What is gamma?"] sample_world
  = chat_loop sample_services "gemini-1.5-pro" collection_name
      ["What is beta?"; "Exit"] sample_world.
Proof.
  apply (input_after_quit_is_ignored sample_services "gemini-1.5-pro"
           collection_name ["What is beta?"] "Exit" ["What is gamma?"] []).
  reflexivity.
Defined.

Lemma chat_turn_adds_two_messages_witness :
  exists reply,
    (answer_prompt sample_services "gemini-1.5-pro" "What is beta?"
       [Message "user" "hello"] sample_world).1
    = Ok ([Message "user" "hello"]
          ++ [Message "user" "What is beta?"; Message "assistant" reply]) /\
    (exists e, reply = "⚠️ Error: " +:+ e) /\
    calls (answer_prompt sample_services "gemini-1.5-pro" "What is beta?"
             [Message "user" "hello"] sample_world).2
    = calls sample_world.
Proof.
  destruct (chat_turn_adds_two_messages sample_services "gemini-1.5-pro"
              "What is beta?" [Message "user" "hello"] sample_world)
    as (reply & Hvalue & _ & Hnone); [reflexivity|].
  exists reply. split; [exact Hvalue|]. apply Hnone. reflexivity.
Defined.

Lemma ingest_stores_loaded_chunks_witness :
  exists stored,
    map entry_id stored = ["doc_0"; "doc_1"; "doc_2"] /\
    map entry_document stored = ["alpha"; "beta"; "gamma"] /\
    map entry_metadata stored
    = [Metadata "a.pdf" 1; Metadata "a.pdf" 3; Metadata "c.pdf" 1] /\
    Forall (fun e => length (entry_embedding e) = 2) stored /\
    (process_and_ingest reliable_services 3 sample_world).1 = Ok tt /\
    chroma (process_and_ingest reliable_services 3 sample_world).2
      !! collection_name = Some stored /\
    chroma (main reliable_services "gemini-1.5-pro" ["What is beta?"; "quit"]
              sample_world).2 !! collection_name = Some stored.
Proof.
  apply (ingest_stores_loaded_chunks reliable_services "gemini-1.5-pro"
           ["What is beta?"; "quit"] 3 sample_world
           ["alpha"; "beta"; "gamma"]
           [Metadata "a.pdf" 1; Metadata "a.pdf" 3; Metadata "c.pdf" 1]
           ["doc_0"; "doc_1"; "doc_2"] 2).
  - vm_compute. reflexivity.
  - simpl. lia.
  - lia.
  - intros [|[|[|j]]] Hj; simpl in Hj; try lia;
      eexists _, _; split; reflexivity.
Defined.
